(** * RAG_EVAL: the [RAGEvaluator] facade of [Streamlit_App/evaluation_module.py]

    A shallow embedding of the evaluator class and the properties its
    specification states about it.

    Conventions of the embedding.
    - A Python call that may raise is a computation in the [result] monad;
      [Raise e] is the exception [e] reaching the caller.
    - Python [float] scores are exact rationals ([Q]); rounding, infinities
      and NaN are outside the model.  Python [int] is [Z], list lengths
      are [nat].
    - A value that numpy hands back (a [numpy.float32] entry of an array,
      the [numpy.bool_] of a comparison on it) is identified with the
      number or truth value it holds; the methods return that value.
    - A text is a [string] whose characters are the code points below 256.
    - The third-party libraries the class delegates to (sacrebleu,
      rouge_score, bert_score, transformers, nltk, textstat, sklearn,
      sentence_transformers, torch) are not part of the repository: they
      are the fields of [Libraries], and the pretrained handles the
      constructor acquires are records of functions. *)

From Stdlib Require Import Ascii QArith ZArith Lia.
From stdpp Require Import gmap strings list.

Set Default Proof Using "Type".

(** ** Exceptions and the error monad *)

Inductive PyError : Type :=
  | ZeroDivisionError
  | IndexError
  | ValueError
  | RuntimeError
  | KeyError
  | LibraryError (msg : string).

Inductive result (A : Type) : Type :=
  | Ok (a : A)
  | Raise (e : PyError).
Arguments Ok {A} a.
Arguments Raise {A} e.

#[global] Instance result_ret : MRet result := fun _ a => Ok a.
#[global] Instance result_bind : MBind result := fun _ _ f m =>
  match m with Ok a => f a | Raise e => Raise e end.
#[global] Instance result_fmap : FMap result := fun _ _ f m =>
  match m with Ok a => Ok (f a) | Raise e => Raise e end.

Definition is_ok {A} (m : result A) : Prop := exists a, m = Ok a.

(** The outcome of a call with its value forgotten. *)
Definition outcome {A} (m : result A) : result unit := (fun _ => tt) <$> m.

(** ** Python values stored in a report *)

Inductive PyValue : Type :=
  | PyFloat (x : Q)
  | PyInt (n : Z)
  | PyBool (b : bool).

Inductive PyType : Type := TFloat | TInt | TBool.

Definition py_type (v : PyValue) : PyType :=
  match v with PyFloat _ => TFloat | PyInt _ => TInt | PyBool _ => TBool end.

(** The number a numeric value denotes ([0.0 == 0] holds in Python). *)
Definition py_num (v : PyValue) : Q :=
  match v with
  | PyFloat x => x
  | PyInt n => inject_Z n
  | PyBool b => if b then 1 else 0
  end.

(** ** Built-ins *)

(** [str.isspace] on the code points below 256. *)
Definition isspace (c : ascii) : bool :=
  let n := nat_of_ascii c in
  ((9 <=? n) && (n <=? 13)) || ((28 <=? n) && (n <=? 32))
  || (n =? 133) || (n =? 160).

(** [text.split()]: the maximal runs of non-whitespace characters.  [cur]
    is the run being read, most recent character first. *)
Fixpoint split_go (cur : string) (s : string) : list string :=
  match s with
  | EmptyString =>
      match cur with EmptyString => [] | _ => [String.rev cur] end
  | String c s' =>
      if isspace c then
        match cur with
        | EmptyString => split_go EmptyString s'
        | _ => String.rev cur :: split_go EmptyString s'
        end
      else split_go (String c cur) s'
  end.

Definition split (text : string) : list string := split_go EmptyString text.

(** [needle in hay] on strings. *)
Fixpoint str_contains (needle hay : string) : bool :=
  String.prefix needle hay
  || match hay with
     | EmptyString => false
     | String _ hay' => str_contains needle hay'
     end.

(** [sum(xs)] of floats; [sum([])] is the integer [0]. *)
Definition sum (xs : list Q) : Q := foldr Qplus 0%Q xs.

(** [x / n] with [n] an integer count: raises on [n = 0]. *)
Definition truediv (x : Q) (n : nat) : result Q :=
  match n with
  | O => Raise ZeroDivisionError
  | S _ => Ok (x / inject_Z (Z.of_nat n))%Q
  end.

(** [xs[i]]. *)
Definition getitem {A} (xs : list A) (i : nat) : result A :=
  match xs !! i with Some x => Ok x | None => Raise IndexError end.

(** [xs.index(x)]. *)
Fixpoint index `{EqDecision A} (x : A) (xs : list A) : result nat :=
  match xs with
  | [] => Raise ValueError
  | y :: ys => if decide (y = x) then Ok O else S <$> index x ys
  end.

(** [nltk.util.ngrams(sequence, n)] for [n >= 1]: the windows of [n]
    consecutive items, in order. *)
Fixpoint ngrams {A} (sequence : list A) (n : nat) : list (list A) :=
  match sequence with
  | [] => []
  | _ :: rest =>
      if decide (n <= length sequence)%nat
      then take n sequence :: ngrams rest n
      else []
  end.

(** [range(0, stop, step)] for [step > 0]. *)
Definition range (stop step : Z) : list Z :=
  (fun k : nat => Z.of_nat k * step)%Z
    <$> seq 0 (Z.to_nat ((stop + step - 1) / step)).

(** [xs[b:e]] for indices [b, e >= 0]. *)
Definition slice {A} (xs : list A) (b e : Z) : list A :=
  take (Z.to_nat e - Z.to_nat b) (drop (Z.to_nat b) xs).

(** The stop index of the slice [xs[:-k]] in a sequence of length [len]:
    [-k] counts from the end when [k > 0] and from the start otherwise,
    clamped to the sequence. *)
Definition stop_of_neg (len : nat) (k : Z) : nat :=
  if decide (0 < k)%Z then len - Z.to_nat k else min (Z.to_nat (- k)) len.

(** [d = {k1: v1, ..., kn: vn}]: the entries are stored left to right. *)
Definition dict_literal {V} (entries : list (string * V)) : gmap string V :=
  foldl (fun d kv => <[kv.1 := kv.2]> d) ∅ entries.

(** [d[k]]. *)
Definition dict_get {V} (d : gmap string V) (k : string) : result V :=
  match d !! k with Some v => Ok v | None => Raise KeyError end.

(** ** The library boundary *)

(** A torch tensor of scores (one per pair) and a sentence embedding. *)
Definition Tensor : Type := list Q.
Definition Embedding : Type := list Q.

(** [rouge_score.scoring.Score]. *)
Record Score : Type := { precision : Q; recall : Q; fmeasure : Q }.

(** One output of a text-classification pipeline. *)
Record Prediction : Type := { label : string; score : Q }.

(** One output of a zero-shot-classification pipeline. *)
Record ZeroShot : Type := { labels : list string; scores : list Q }.

(** [GPT2LMHeadModel]: [config.n_positions], and the forward pass
    [model(input_ids, labels=target_ids)] returning the loss [outputs[0]]. *)
Record GPT2LMHeadModel : Type := {
  n_positions : Z;
  forward : list Z -> list Z -> result Q
}.

(** [GPT2Tokenizer]: [tokenizer(text, return_tensors='pt').input_ids], a
    batch of one row. *)
Definition GPT2Tokenizer : Type := string -> result (list Z).

(** [pipeline("zero-shot-classification", ...)], called on a list of texts
    with [candidate_labels]. *)
Definition ZeroShotPipeline : Type :=
  list string -> list string -> result (list ZeroShot).

(** [pipeline("text-classification", ...)], called on one text. *)
Definition TextPipeline : Type := string -> result (list Prediction).

(** [SentenceTransformer.encode]. *)
Definition SentenceTransformer : Type := list string -> result (list Embedding).

(** The functions imported at the top of the module. *)
Record Libraries : Type := {
  (* loaders used by the constructor *)
  GPT2LMHeadModel_from_pretrained : string -> result GPT2LMHeadModel;
  GPT2Tokenizer_from_pretrained : string -> result GPT2Tokenizer;
  pipeline_zero_shot : string -> result ZeroShotPipeline;
  pipeline_text_classification : string -> result TextPipeline;
  SentenceTransformer_load : string -> result SentenceTransformer;
  (* scorers *)
  corpus_bleu : list string -> list (list string) -> result Q;
  rouge_scorer_score : string -> string -> result (gmap string Score);
  bert_score : list string -> list string -> result (Tensor * Tensor * Tensor);
  tensor_mean : Tensor -> Q;
  torch_exp : Q -> Q;
  word_tokenize : string -> result (list string);
  meteor_score : list (list string) -> list string -> result Q;
  sentence_chrf : string -> string -> result Q;
  flesch_reading_ease : string -> result Q;
  flesch_kincaid_grade : string -> result Q;
  cosine_similarity :
    list Embedding -> list Embedding -> result (list (list Q))
}.

(** ** The evaluator object *)

Record RAGEvaluator : Type := {
  gpt2_model : GPT2LMHeadModel;
  gpt2_tokenizer : GPT2Tokenizer;
  bias_pipeline : ZeroShotPipeline;
  sentence_transformer : SentenceTransformer;
  toxicity_pipeline : TextPipeline
}.

(** ** Construction

    The constructor acquires pretrained capabilities.  A computation in
    [Init] threads the log of acquisitions made so far and stops at the
    first load that raises. *)

Inductive Capability : Type :=
  | CausalLM
  | Tokenizer
  | BiasClassifier
  | SentenceEncoder
  | ToxicityClassifier.

#[global] Instance Capability_eq_dec : EqDecision Capability.
Proof. solve_decision. Defined.

Definition Init (A : Type) : Type :=
  list Capability -> result A * list Capability.

Definition init_ret {A} (a : A) : Init A := fun log => (Ok a, log).

Definition init_bind {A B} (m : Init A) (f : A -> Init B) : Init B :=
  fun log =>
    match m log with
    | (Ok a, log') => f a log'
    | (Raise e, log') => (Raise e, log')
    end.

(** One load: the capability is recorded, then the library decides. *)
Definition acquire {A} (c : Capability) (load : result A) : Init A :=
  fun log => (load, log ++ [c]).

Notation "'let*' x ':=' m 'in' k" := (init_bind m (fun x => k))
  (at level 10, x pattern, m at level 100, k at level 200, only parsing).

Section Construction.
Context (lib : Libraries).

Definition load_gpt2_model : Init (GPT2LMHeadModel * GPT2Tokenizer) :=
  let* model := acquire CausalLM (GPT2LMHeadModel_from_pretrained lib "gpt2") in
  let* tokenizer := acquire Tokenizer (GPT2Tokenizer_from_pretrained lib "gpt2") in
  init_ret (model, tokenizer).

Definition __init__ : Init RAGEvaluator :=
  let* (_, _) := load_gpt2_model in
  let* bias :=
    acquire BiasClassifier
      (pipeline_zero_shot lib "Hate-speech-CNERG/dehatebert-mono-english") in
  let* (model, tokenizer) := load_gpt2_model in
  let* encoder :=
    acquire SentenceEncoder (SentenceTransformer_load lib "all-mpnet-base-v2") in
  let* toxicity :=
    acquire ToxicityClassifier
      (pipeline_text_classification lib "unitary/toxic-bert") in
  init_ret {| gpt2_model := model;
              gpt2_tokenizer := tokenizer;
              bias_pipeline := bias;
              sentence_transformer := encoder;
              toxicity_pipeline := toxicity |}.

(** [RAGEvaluator()]: the constructor run from an empty log. *)
Definition construct : result RAGEvaluator * list Capability := __init__ [].
End Construction.

(** The loads of a construction in which every load returns. *)
Definition expected_loads : list Capability :=
  [CausalLM; Tokenizer; BiasClassifier; CausalLM; Tokenizer;
   SentenceEncoder; ToxicityClassifier].

(** ** The metric methods *)

Definition stride : Z := 512.
Definition default_factual_threshold : Q := 8 # 10.
Definition default_relevance_threshold : Q := 7 # 10.

Section Methods.
Context (lib : Libraries) (self : RAGEvaluator).

Definition evaluate_bleu_rouge (candidates references : list string)
  : result (Q * Q) :=
  bleu_score ← corpus_bleu lib candidates [references];
  rouge_scores ← mapM (fun rc => rouge_scorer_score lib rc.1 rc.2)
                    (zip references candidates);
  fmeasures ← mapM (fun sc => fmeasure <$> dict_get sc "rouge1") rouge_scores;
  rouge1 ← truediv (sum fmeasures) (length rouge_scores);
  mret (bleu_score, rouge1).

Definition evaluate_bert_score (candidates references : list string)
  : result (Q * Q * Q) :=
  prf ← bert_score lib candidates references;
  mret (tensor_mean lib prf.1.1, tensor_mean lib prf.1.2, tensor_mean lib prf.2).

(** One iteration of the sliding-window loop, for the window starting at
    [i]: the scaled loss appended to [lls] and the value left in
    [end_loc]. *)
Definition perplexity_window (input_ids_all : list Z) (i : Z) : result (Q * Z) :=
  let max_length := n_positions (gpt2_model self) in
  let size1 := Z.of_nat (length input_ids_all) in
  let begin_loc := Z.max (i + stride - max_length) 0 in
  let end_loc := Z.min (i + stride) size1 in
  let trg_len := (end_loc - i)%Z in
  let input_ids := slice input_ids_all begin_loc end_loc in
  let masked := stop_of_neg (length input_ids) trg_len in
  let target_ids := replicate masked (-100)%Z ++ drop masked input_ids in
  loss ← forward (gpt2_model self) input_ids target_ids;
  mret ((loss * inject_Z trg_len)%Q, end_loc).

Definition evaluate_perplexity (text : string) : result Q :=
  input_ids ← gpt2_tokenizer self text;
  windows ← mapM (perplexity_window input_ids)
               (range (Z.of_nat (length input_ids)) stride);
  match last windows with
  | None => Raise RuntimeError   (* torch.stack of an empty list *)
  | Some (_, end_loc) =>
      mret (torch_exp lib (sum (fst <$> windows) / inject_Z end_loc)%Q)
  end.

Definition all_tokens_of (texts : list string) : list string :=
  t ← texts; split t.

Definition evaluate_diversity (texts : list string) : PyValue :=
  let all_tokens := all_tokens_of texts in
  let unique_bigrams : gset (list string) := list_to_set (ngrams all_tokens 2) in
  match all_tokens with
  | [] => PyInt 0
  | _ => PyFloat (inject_Z (Z.of_nat (size unique_bigrams))
                  / inject_Z (Z.of_nat (length all_tokens)))
  end.

Definition evaluate_racial_bias (text : string) : result Q :=
  results ← bias_pipeline self [text] ["hate speech"; "not hate speech"];
  first ← getitem results 0;
  i ← index "hate speech" (labels first);
  getitem (scores first) i.

(** The per-call [nltk.download('punkt', quiet=True)] does not affect the
    value returned and is left out. *)
Definition evaluate_meteor (candidates references : list string) : result Q :=
  meteor_scores ←
    mapM (fun rc =>
            ref_tokens ← word_tokenize lib rc.1;
            cand_tokens ← word_tokenize lib rc.2;
            meteor_score lib [ref_tokens] cand_tokens)
         (zip references candidates);
  truediv (sum meteor_scores) (length meteor_scores).

Definition evaluate_chrf (candidates references : list string) : result Q :=
  chrf_scores ← mapM (fun rc => sentence_chrf lib rc.1 rc.2)
                  (zip references candidates);
  truediv (sum chrf_scores) (length chrf_scores).

Definition evaluate_readability (text : string) : result (Q * Q) :=
  flesch_ease ← flesch_reading_ease lib text;
  flesch_grade ← flesch_kincaid_grade lib text;
  mret (flesch_ease, flesch_grade).

Definition evaluate_semantic_similarity (candidate reference : string)
  : result Q :=
  embeddings ← sentence_transformer self [candidate; reference];
  e0 ← getitem embeddings 0;
  e1 ← getitem embeddings 1;
  sims ← cosine_similarity lib [e0] [e1];
  row ← getitem sims 0;
  getitem row 0.

Definition evaluate_factual_consistency
    (candidate reference : string) (threshold : Q) : result bool :=
  similarity ← evaluate_semantic_similarity candidate reference;
  mret (Qle_bool threshold similarity).

Definition evaluate_question_relevance
    (question response : string) (threshold : Q) : result bool :=
  similarity ← evaluate_semantic_similarity question response;
  mret (Qle_bool threshold similarity).

Definition evaluate_toxicity (text : string) : result Q :=
  predictions ← toxicity_pipeline self text;
  top ← getitem predictions 0;
  mret (if str_contains "toxic" (label top) then score top else 0%Q).

Definition evaluate_context_relevance
    (context response : string) (threshold : Q) : result bool :=
  similarity ← evaluate_semantic_similarity context response;
  mret (Qle_bool threshold similarity).

Definition evaluate_answer_relevance
    (question response : string) (threshold : Q) : result bool :=
  similarity ← evaluate_semantic_similarity question response;
  mret (Qle_bool threshold similarity).

Definition evaluate_all (question response reference : string)
  : result (gmap string PyValue) :=
  let candidates := [response] in
  let references := [reference] in
  br ← evaluate_bleu_rouge candidates references;
  prf ← evaluate_bert_score candidates references;
  perplexity ← evaluate_perplexity response;
  let diversity := evaluate_diversity candidates in
  racial_bias ← evaluate_racial_bias response;
  meteor ← evaluate_meteor candidates references;
  chrf ← evaluate_chrf candidates references;
  fl ← evaluate_readability response;
  semantic_similarity ← evaluate_semantic_similarity response reference;
  factual_consistency ←
    evaluate_factual_consistency response reference default_factual_threshold;
  question_relevance ←
    evaluate_question_relevance question response default_relevance_threshold;
  context_relevance ←
    evaluate_question_relevance reference response default_relevance_threshold;
  answer_relevance ←
    evaluate_question_relevance question response default_relevance_threshold;
  toxicity ← evaluate_toxicity response;
  mret (dict_literal [
    ("BLEU", PyFloat br.1);
    ("ROUGE-1", PyFloat br.2);
    ("BERT P", PyFloat prf.1.1);
    ("BERT R", PyFloat prf.1.2);
    ("BERT F1", PyFloat prf.2);
    ("Perplexity", PyFloat perplexity);
    ("Diversity", diversity);
    ("Racial Bias", PyFloat racial_bias);
    ("METEOR", PyFloat meteor);
    ("CHRF", PyFloat chrf);
    ("Flesch Reading Ease", PyFloat fl.1);
    ("Flesch-Kincaid Grade", PyFloat fl.2);
    ("Semantic Similarity", PyFloat semantic_similarity);
    ("Factual Consistency", PyBool factual_consistency);
    ("Question Relevance", PyBool question_relevance);
    ("Context Relevance", PyBool context_relevance);
    ("Answer Relevance", PyBool answer_relevance);
    ("Toxicity", PyFloat toxicity)
  ]).
End Methods.

(** ** The report of [evaluate_all] *)

Definition report_keys : list string :=
  [ "BLEU"; "ROUGE-1"; "BERT P"; "BERT R"; "BERT F1"; "Perplexity";
    "Diversity"; "Racial Bias"; "METEOR"; "CHRF"; "Flesch Reading Ease";
    "Flesch-Kincaid Grade"; "Semantic Similarity"; "Factual Consistency";
    "Question Relevance"; "Context Relevance"; "Answer Relevance"; "Toxicity" ].

Definition boolean_keys : list string :=
  [ "Factual Consistency"; "Question Relevance"; "Context Relevance";
    "Answer Relevance" ].

(** The calls [evaluate_all] makes, in the order it makes them, each with
    its value forgotten. *)
Definition metric_calls (lib : Libraries) (self : RAGEvaluator)
    (question response reference : string) : list (result unit) :=
  [ outcome (evaluate_bleu_rouge lib [response] [reference]);
    outcome (evaluate_bert_score lib [response] [reference]);
    outcome (evaluate_perplexity lib self response);
    outcome (Ok (evaluate_diversity [response]));
    outcome (evaluate_racial_bias self response);
    outcome (evaluate_meteor lib [response] [reference]);
    outcome (evaluate_chrf lib [response] [reference]);
    outcome (evaluate_readability lib response);
    outcome (evaluate_semantic_similarity lib self response reference);
    outcome (evaluate_factual_consistency lib self response reference
               default_factual_threshold);
    outcome (evaluate_question_relevance lib self question response
               default_relevance_threshold);
    outcome (evaluate_question_relevance lib self reference response
               default_relevance_threshold);
    outcome (evaluate_question_relevance lib self question response
               default_relevance_threshold);
    outcome (evaluate_toxicity self response) ].

(** The exception of the first call that raises, if any. *)
Fixpoint first_raise (calls : list (result unit)) : option PyError :=
  match calls with
  | [] => None
  | Ok _ :: rest => first_raise rest
  | Raise e :: _ => Some e
  end.

(** ** The cosine of two vectors

    [sklearn.metrics.pairwise.cosine_similarity] on two one-row matrices,
    as scikit-learn documents it: each row is divided by its Euclidean
    norm (a zero norm counting as 1) and the cosine is the dot product of
    the two normalised rows.  The square root is the library's. *)

Definition dot (x y : Embedding) : Q := sum (zip_with Qmult x y).

Definition l2_norm (sqrt : Q -> Q) (x : Embedding) : Q :=
  let n := sqrt (dot x x) in
  if Qeq_bool n 0 then 1%Q else n.

Definition normalize (sqrt : Q -> Q) (x : Embedding) : Embedding :=
  (fun a => a / l2_norm sqrt x)%Q <$> x.

Definition sklearn_cosine (sqrt : Q -> Q) (x y : Embedding) : Q :=
  dot (normalize sqrt x) (normalize sqrt y).

(** ** Deterministic test doubles

    Stand-ins for the pretrained models and scoring libraries, used to run
    the evaluator on concrete inputs. *)

#[global] Instance Q_eq_dec : EqDecision Q.
Proof. solve_decision. Defined.

Module Stub.
(** A byte-level tokenizer: one token per character. *)
Fixpoint char_ids (s : string) : list Z :=
  match s with
  | EmptyString => []
  | String c s' => Z.of_nat (nat_of_ascii c) :: char_ids s'
  end.

Definition tokenizer : GPT2Tokenizer := fun text => Ok (char_ids text).

Definition model : GPT2LMHeadModel :=
  {| n_positions := 1024;
     forward := fun input_ids _ => Ok (inject_Z (Z.of_nat (length input_ids))) |}.

Definition bias : ZeroShotPipeline := fun texts candidate_labels =>
  Ok ((fun _ => {| labels := reverse candidate_labels;
                   scores := [3 # 4; 1 # 4] |}) <$> texts).

Definition embed (text : string) : Embedding :=
  [inject_Z (Z.of_nat (String.length text)); 1%Q].

Definition encoder : SentenceTransformer := fun texts => Ok (embed <$> texts).

Definition toxicity : TextPipeline := fun text =>
  Ok [ if str_contains "damn" text
       then {| label := "toxic"; score := 9 # 10 |}
       else {| label := "neutral"; score := 6 # 10 |} ].

Definition cosine (X Y : list Embedding) : result (list (list Q)) :=
  Ok ((fun x => (fun y => if decide (x = y) then 1%Q else (1 # 2)%Q) <$> Y) <$> X).

Definition rouge (ref cand : string) : result (gmap string Score) :=
  let s := if decide (ref = cand)
           then {| precision := 1; recall := 1; fmeasure := 1 |}
           else {| precision := 1 # 2; recall := 1 # 2; fmeasure := 1 # 2 |} in
  Ok (dict_literal [("rouge1", s); ("rouge2", s); ("rougeL", s)]).

Definition lib : Libraries :=
  {| GPT2LMHeadModel_from_pretrained := fun _ => Ok model;
     GPT2Tokenizer_from_pretrained := fun _ => Ok tokenizer;
     pipeline_zero_shot := fun _ => Ok bias;
     pipeline_text_classification := fun _ => Ok toxicity;
     SentenceTransformer_load := fun _ => Ok encoder;
     corpus_bleu := fun _ _ => Ok 50%Q;
     rouge_scorer_score := rouge;
     bert_score := fun candidates _ =>
       let t := (fun _ => (4 # 5)%Q) <$> candidates in Ok (t, t, t);
     tensor_mean := fun t => (sum t / inject_Z (Z.of_nat (length t)))%Q;
     torch_exp := fun x => (1 + x)%Q;
     word_tokenize := fun text => Ok (split text);
     meteor_score := fun _ _ => Ok (1 # 2)%Q;
     sentence_chrf := fun _ _ => Ok (1 # 3)%Q;
     flesch_reading_ease := fun _ => Ok 60%Q;
     flesch_kincaid_grade := fun _ => Ok 8%Q;
     cosine_similarity := cosine |}.

Definition evaluator : RAGEvaluator :=
  {| gpt2_model := model;
     gpt2_tokenizer := tokenizer;
     bias_pipeline := bias;
     sentence_transformer := encoder;
     toxicity_pipeline := toxicity |}.

(** The report of the run on ("why", "the cat sat", "a cat sat"). *)
Definition report : gmap string PyValue :=
  dict_literal [
    ("BLEU", PyFloat 50);
    ("ROUGE-1", PyFloat ((0 + (1 # 2)) / 1));
    ("BERT P", PyFloat (4 # 5));
    ("BERT R", PyFloat (4 # 5));
    ("BERT F1", PyFloat (4 # 5));
    ("Perplexity", PyFloat (132 # 11));
    ("Diversity", PyFloat (2 # 3));
    ("Racial Bias", PyFloat (1 # 4));
    ("METEOR", PyFloat (1 # 2));
    ("CHRF", PyFloat (1 # 3));
    ("Flesch Reading Ease", PyFloat 60);
    ("Flesch-Kincaid Grade", PyFloat 8);
    ("Semantic Similarity", PyFloat (1 # 2));
    ("Factual Consistency", PyBool false);
    ("Question Relevance", PyBool false);
    ("Context Relevance", PyBool false);
    ("Answer Relevance", PyBool false);
    ("Toxicity", PyFloat 0)
  ].
End Stub.

(** Doubles that misbehave, for the error paths. *)
Module Faulty.
(** A zero-shot pipeline that answers with labels of its own. *)
Definition bias : ZeroShotPipeline := fun texts _ =>
  Ok ((fun _ => {| labels := ["offensive"; "neutral"];
                   scores := [1 # 2; 1 # 2] |}) <$> texts).

Definition evaluator : RAGEvaluator :=
  {| gpt2_model := Stub.model;
     gpt2_tokenizer := Stub.tokenizer;
     bias_pipeline := bias;
     sentence_transformer := Stub.encoder;
     toxicity_pipeline := Stub.toxicity |}.

(** Libraries whose sentence encoder cannot be loaded. *)
Definition lib : Libraries :=
  {| GPT2LMHeadModel_from_pretrained := fun _ => Ok Stub.model;
     GPT2Tokenizer_from_pretrained := fun _ => Ok Stub.tokenizer;
     pipeline_zero_shot := fun _ => Ok Stub.bias;
     pipeline_text_classification := fun _ => Ok Stub.toxicity;
     SentenceTransformer_load := fun _ => Raise (LibraryError "offline");
     corpus_bleu := corpus_bleu Stub.lib;
     rouge_scorer_score := rouge_scorer_score Stub.lib;
     bert_score := bert_score Stub.lib;
     tensor_mean := tensor_mean Stub.lib;
     torch_exp := torch_exp Stub.lib;
     word_tokenize := word_tokenize Stub.lib;
     meteor_score := meteor_score Stub.lib;
     sentence_chrf := sentence_chrf Stub.lib;
     flesch_reading_ease := flesch_reading_ease Stub.lib;
     flesch_kincaid_grade := flesch_kincaid_grade Stub.lib;
     cosine_similarity := cosine_similarity Stub.lib |}.
End Faulty.

(** A language model whose loss is the same on every window. *)
Module Uniform.
Definition model : GPT2LMHeadModel :=
  {| n_positions := 1024; forward := fun _ _ => Ok 3%Q |}.

Definition evaluator : RAGEvaluator :=
  {| gpt2_model := model;
     gpt2_tokenizer := Stub.tokenizer;
     bias_pipeline := Stub.bias;
     sentence_transformer := Stub.encoder;
     toxicity_pipeline := Stub.toxicity |}.

(** The report of the stub run on ("what is it?", "the cat sat",
    "a cat sat"): the question now has the length of the response, which
    the stub encoder takes for relevance. *)
Definition report_other_question : gmap string PyValue :=
  dict_literal [
    ("BLEU", PyFloat 50);
    ("ROUGE-1", PyFloat ((0 + (1 # 2)) / 1));
    ("BERT P", PyFloat (4 # 5));
    ("BERT R", PyFloat (4 # 5));
    ("BERT F1", PyFloat (4 # 5));
    ("Perplexity", PyFloat (132 # 11));
    ("Diversity", PyFloat (2 # 3));
    ("Racial Bias", PyFloat (1 # 4));
    ("METEOR", PyFloat (1 # 2));
    ("CHRF", PyFloat (1 # 3));
    ("Flesch Reading Ease", PyFloat 60);
    ("Flesch-Kincaid Grade", PyFloat 8);
    ("Semantic Similarity", PyFloat (1 # 2));
    ("Factual Consistency", PyBool false);
    ("Question Relevance", PyBool true);
    ("Context Relevance", PyBool false);
    ("Answer Relevance", PyBool true);
    ("Toxicity", PyFloat 0)
  ].
End Uniform.

(** Doubles that follow the scoring libraries more closely. *)
Module Strict.
(** A corpus scorer that inspects its first hypothesis before scoring, and
    so raises [IndexError] on an empty corpus. *)
Definition bleu (hypotheses : list string) (references : list (list string))
  : result Q :=
  match hypotheses with
  | [] => Raise IndexError
  | _ => Ok 50%Q
  end.

(** A square root rounded down on numerator and denominator. *)
Definition sqrt (q : Q) : Q :=
  (inject_Z (Z.sqrt (Qnum q)) / inject_Z (Z.sqrt (Z.pos (Qden q))))%Q.

(** The pairwise cosine matrix of two lists of rows. *)
Definition cosine (X Y : list Embedding) : result (list (list Q)) :=
  Ok ((fun x => (fun y => sklearn_cosine sqrt x y) <$> Y) <$> X).

Definition lib : Libraries :=
  {| GPT2LMHeadModel_from_pretrained := GPT2LMHeadModel_from_pretrained Stub.lib;
     GPT2Tokenizer_from_pretrained := GPT2Tokenizer_from_pretrained Stub.lib;
     pipeline_zero_shot := pipeline_zero_shot Stub.lib;
     pipeline_text_classification := pipeline_text_classification Stub.lib;
     SentenceTransformer_load := SentenceTransformer_load Stub.lib;
     corpus_bleu := bleu;
     rouge_scorer_score := rouge_scorer_score Stub.lib;
     bert_score := bert_score Stub.lib;
     tensor_mean := tensor_mean Stub.lib;
     torch_exp := torch_exp Stub.lib;
     word_tokenize := word_tokenize Stub.lib;
     meteor_score := meteor_score Stub.lib;
     sentence_chrf := sentence_chrf Stub.lib;
     flesch_reading_ease := flesch_reading_ease Stub.lib;
     flesch_kincaid_grade := flesch_kincaid_grade Stub.lib;
     cosine_similarity := cosine |}.
End Strict.

(** The outcome of the load the constructor performs for a capability. *)
Definition load_outcome (lib : Libraries) (c : Capability) : result unit :=
  match c with
  | CausalLM => outcome (GPT2LMHeadModel_from_pretrained lib "gpt2")
  | Tokenizer => outcome (GPT2Tokenizer_from_pretrained lib "gpt2")
  | BiasClassifier =>
      outcome (pipeline_zero_shot lib "Hate-speech-CNERG/dehatebert-mono-english")
  | SentenceEncoder => outcome (SentenceTransformer_load lib "all-mpnet-base-v2")
  | ToxicityClassifier =>
      outcome (pipeline_text_classification lib "unitary/toxic-bert")
  end.

(** * Properties *)

Example split_ex : split "  the cat   sat " = ["the"; "cat"; "sat"].
Proof. reflexivity. Qed.

Example diversity_ex :
  evaluate_diversity ["a b a b"] = PyFloat (2 # 4).
Proof. vm_compute. reflexivity. Qed.

Example ngrams_ex :
  ngrams ["a"; "b"; "c"] 2 = [["a"; "b"]; ["b"; "c"]] /\ ngrams ["a"] 2 = [].
Proof. by split. Qed.

Example range_ex :
  range 0 stride = [] /\ range 512 stride = [0%Z]
  /\ range 1025 stride = [0; 512; 1024]%Z.
Proof. by repeat split. Qed.

Example slice_ex :
  slice [1; 2; 3; 4]%Z 1 3 = [2; 3]%Z /\ slice [1; 2]%Z 0 5 = [1; 2]%Z
  /\ slice [1; 2]%Z 3 1 = [].
Proof. by repeat split. Qed.

Example stop_of_neg_ex :
  stop_of_neg 5 2 = 3%nat /\ stop_of_neg 2 5 = 0%nat /\ stop_of_neg 4 0 = 0%nat.
Proof. by repeat split. Qed.

(** ** The error monad *)

Lemma bind_Ok {A B} (m : result A) (f : A -> result B) b :
  m ≫= f = Ok b <-> exists a, m = Ok a /\ f a = Ok b.
Proof.
  destruct m as [a|e]; simpl; split.
  - intros H. by exists a.
  - by intros (a' & [= <-] & H).
  - discriminate.
  - by intros (a' & [=] & _).
Qed.

Lemma bind_Ok_l {A B} (a : A) (f : A -> result B) : Ok a ≫= f = f a.
Proof. reflexivity. Qed.

Lemma mapM_Ok_length {A B} (f : A -> result B) l k :
  mapM f l = Ok k -> length k = length l.
Proof.
  revert k. induction l as [|x l IH]; intros k; simpl.
  - by intros [= <-].
  - destruct (f x) as [y|]; simpl; [|discriminate].
    destruct (mapM f l) as [k'|]; simpl; [|discriminate].
    intros [= <-]. simpl. by rewrite (IH k').
Qed.


(** ** Sets of n-grams *)

Lemma size_list_to_set_le `{Countable A} (l : list A) :
  size (list_to_set l : gset A) <= length l.
Proof.
  induction l as [|x l IH].
  - rewrite list_to_set_nil, size_empty. simpl. lia.
  - rewrite list_to_set_cons, size_union_alt, size_singleton. simpl.
    assert (size (list_to_set l ∖ {[x]} : gset A) <= size (list_to_set l : gset A))
      as Hle.
    { apply subseteq_size. apply subseteq_difference_l. reflexivity. }
    lia.
Qed.

Lemma size_list_to_set_0 `{Countable A} (l : list A) :
  size (list_to_set l : gset A) = 0%nat <-> l = [].
Proof.
  split.
  - destruct l as [|x l]; [done|]. intros Hs.
    apply size_empty_iff in Hs. rewrite list_to_set_cons in Hs. set_solver.
  - intros ->. by rewrite list_to_set_nil, size_empty.
Qed.

Lemma length_ngrams_2 {A} (l : list A) :
  length (ngrams l 2) = (length l - 1)%nat.
Proof.
  induction l as [|x l IH]; [done|].
  cbn [ngrams]. case_decide as Hn; simpl in Hn |- *.
  - rewrite IH. lia.
  - lia.
Qed.

(** ** Ratios of counts *)

Lemma count_ratio_bounds (a b : nat) :
  (a <= b)%nat -> (0 < b)%nat ->
  (0 <= inject_Z (Z.of_nat a) / inject_Z (Z.of_nat b) <= 1)%Q.
Proof.
  intros Hab Hb.
  assert (0 < inject_Z (Z.of_nat b))%Q as Hb'.
  { change 0%Q with (inject_Z 0). rewrite <- Zlt_Qlt. lia. }
  split.
  - apply Qle_shift_div_l; [done|]. rewrite Qmult_0_l.
    change 0%Q with (inject_Z 0). rewrite <- Zle_Qle. lia.
  - apply Qle_shift_div_r; [done|]. rewrite Qmult_1_l.
    rewrite <- Zle_Qle. lia.
Qed.

Lemma count_ratio_zero (a b : nat) :
  (0 < b)%nat ->
  (inject_Z (Z.of_nat a) / inject_Z (Z.of_nat b) == 0)%Q <-> a = 0%nat.
Proof.
  intros Hb. destruct b as [|b]; [lia|].
  unfold Qeq, Qdiv, Qmult, Qinv, inject_Z. simpl. lia.
Qed.

(** ** Lexical diversity *)

Lemma evaluate_diversity_no_tokens texts :
  all_tokens_of texts = [] -> evaluate_diversity texts = PyInt 0.
Proof. unfold evaluate_diversity. by intros ->. Qed.

Lemma evaluate_diversity_tokens texts :
  all_tokens_of texts <> [] ->
  evaluate_diversity texts =
    PyFloat (inject_Z (Z.of_nat (size (list_to_set (ngrams (all_tokens_of texts) 2)
                                         : gset (list string))))
             / inject_Z (Z.of_nat (length (all_tokens_of texts)))).
Proof. unfold evaluate_diversity. by destruct (all_tokens_of texts). Qed.

Lemma unique_bigrams_le (tokens : list string) :
  (size (list_to_set (ngrams tokens 2) : gset (list string)) <= length tokens - 1)%nat.
Proof. rewrite <- length_ngrams_2. apply size_list_to_set_le. Qed.

Lemma unique_bigrams_0 (tokens : list string) :
  size (list_to_set (ngrams tokens 2) : gset (list string)) = 0%nat
  <-> (length tokens <= 1)%nat.
Proof.
  rewrite size_list_to_set_0. rewrite <- length_zero_iff_nil, length_ngrams_2. lia.
Qed.

(** C2, as amended: the diversity of any sequence of texts lies in [0,1],
    and it is 0 exactly when the combined token sequence has at most one
    token (no bigram can be formed), which includes the empty sequence. *)
Theorem evaluate_diversity_range (texts : list string) :
  (0 <= py_num (evaluate_diversity texts) <= 1)%Q /\
  ((py_num (evaluate_diversity texts) == 0)%Q
   <-> (length (all_tokens_of texts) <= 1)%nat).
Proof.
  destruct (decide (all_tokens_of texts = [])) as [Hnil|Hne].
  - rewrite (evaluate_diversity_no_tokens _ Hnil), Hnil. simpl.
    split; [split; discriminate|]. split; [lia | reflexivity].
  - rewrite (evaluate_diversity_tokens _ Hne). simpl.
    assert (0 < length (all_tokens_of texts))%nat as Hpos.
    { destruct (all_tokens_of texts); [done | simpl; lia]. }
    pose proof (unique_bigrams_le (all_tokens_of texts)) as Hle.
    split.
    + apply count_ratio_bounds; lia.
    + rewrite (count_ratio_zero _ _ Hpos). apply unique_bigrams_0.
Qed.

(** C2, as stated, fails: one token gives diversity 0 although the token
    sequence is not empty. *)
Lemma evaluate_diversity_single_token :
  (py_num (evaluate_diversity ["hello"]) == 0)%Q /\ all_tokens_of ["hello"] = ["hello"].
Proof. split; vm_compute; reflexivity. Qed.

(** ** The cosine is symmetric *)

Lemma Qmult_comm_eq (x y : Q) : (x * y)%Q = (y * x)%Q.
Proof.
  destruct x as [a b], y as [c d]. unfold Qmult. simpl.
  f_equal; [apply Z.mul_comm | apply Pos.mul_comm].
Qed.

Lemma dot_sym (x y : Embedding) : dot x y = dot y x.
Proof.
  unfold dot. f_equal. revert y.
  induction x as [|a x IH]; intros [|c y]; simpl; try done.
  by rewrite Qmult_comm_eq, IH.
Qed.

Lemma sklearn_cosine_sym (sqrt : Q -> Q) (x y : Embedding) :
  sklearn_cosine sqrt x y = sklearn_cosine sqrt y x.
Proof. apply dot_sym. Qed.

(** ** Thresholded similarity *)

Section Similarity.
Context (lib : Libraries) (self : RAGEvaluator).

Lemma thresholded_Ok (m : result Q) (t : Q) (b : bool) :
  (s ← m; mret (Qle_bool t s)) = Ok b
  <-> exists s, m = Ok s /\ Qle_bool t s = b.
Proof.
  rewrite bind_Ok. split; intros (s & Hs & Hb); exists s; split; try done.
  - by injection Hb.
  - by rewrite <- Hb.
Qed.

Lemma factual_consistency_Ok a b t v :
  evaluate_factual_consistency lib self a b t = Ok v
  <-> exists s, evaluate_semantic_similarity lib self a b = Ok s
                /\ Qle_bool t s = v.
Proof. apply thresholded_Ok. Qed.

(** C3: factual consistency is true exactly when the semantic similarity
    of the pair is at least the threshold, false exactly when it is
    below, and a pair judged consistent at a threshold is judged
    consistent at every lower one. *)
Theorem factual_consistency_threshold (a b : string) (t t' : Q) :
  (evaluate_factual_consistency lib self a b t = Ok true
   <-> exists s, evaluate_semantic_similarity lib self a b = Ok s /\ (t <= s)%Q)
  /\ (evaluate_factual_consistency lib self a b t = Ok false
      <-> exists s, evaluate_semantic_similarity lib self a b = Ok s /\ ~ (t <= s)%Q)
  /\ ((t <= t')%Q ->
      evaluate_factual_consistency lib self a b t' = Ok true ->
      evaluate_factual_consistency lib self a b t = Ok true).
Proof.
  split; [|split].
  - rewrite factual_consistency_Ok.
    split; intros (s & Hs & Hb); exists s; split; try done;
      by apply Qle_bool_iff.
  - rewrite factual_consistency_Ok.
    split; intros (s & Hs & Hb); exists s; split; try done.
    + rewrite <- Qle_bool_iff. by rewrite Hb.
    + destruct (Qle_bool t s) eqn:Hle; [|done].
      by apply Qle_bool_iff in Hle.
  - intros Htt'. rewrite !factual_consistency_Ok.
    intros (s & Hs & Hb). exists s. split; [done|].
    apply Qle_bool_iff. apply Qle_bool_iff in Hb.
    by apply Qle_trans with t'.
Qed.

(** C6: when the encoder embeds each sentence of a batch on its own, and
    the library computes the cosine as the dot product of the two
    normalised vectors, the semantic similarity of two texts is symmetric:
    the cosine of the two sentence embeddings does not depend on their
    order. *)
Theorem semantic_similarity_symmetric
    (sqrt : Q -> Q) (embed : string -> Embedding) (a b : string) :
  (forall texts, sentence_transformer self texts = Ok (embed <$> texts)) ->
  (forall x y, cosine_similarity lib [x] [y] = Ok [[sklearn_cosine sqrt x y]]) ->
  evaluate_semantic_similarity lib self a b
  = evaluate_semantic_similarity lib self b a.
Proof.
  intros Henc Hcos. unfold evaluate_semantic_similarity.
  rewrite !Henc. simpl. rewrite !Hcos. simpl.
  by rewrite sklearn_cosine_sym.
Qed.
End Similarity.

(** ** Toxicity *)

Example str_contains_ex :
  str_contains "toxic" "severe_toxic" = true
  /\ str_contains "toxic" "neutral" = false
  /\ str_contains "toxic" "TOXIC" = false.
Proof. by vm_compute. Qed.

(** C4: when the classifier returns its predictions, the top one with a
    score in [0,1], the toxicity is a value in [0,1]: it is 0 if the top
    label does not contain "toxic", and the top score unchanged if it
    does. *)
Theorem evaluate_toxicity_range
    (self : RAGEvaluator) (text : string) (top : Prediction) (rest : list Prediction) :
  toxicity_pipeline self text = Ok (top :: rest) ->
  (0 <= score top <= 1)%Q ->
  exists v, evaluate_toxicity self text = Ok v
    /\ (0 <= v <= 1)%Q
    /\ (str_contains "toxic" (label top) = false -> v = 0%Q)
    /\ (str_contains "toxic" (label top) = true -> v = score top).
Proof.
  intros Hpipe Hscore. unfold evaluate_toxicity. rewrite Hpipe. simpl.
  destruct (str_contains "toxic" (label top)) eqn:Hlabel.
  - exists (score top). split; [done|]. split; [done|]. by split.
  - exists 0%Q. split; [done|]. split; [by split|]. by split.
Qed.

(** ** Perplexity *)

Section Perplexity.
Context (lib : Libraries) (self : RAGEvaluator).

Lemma range_single : range 1 stride = [0%Z].
Proof. reflexivity. Qed.

(** The window of a one-token input: nothing is masked, the target
    length is 1 and [end_loc] is 1. *)
Lemma perplexity_window_single (tok : Z) :
  let window := slice [tok] (Z.max (stride - n_positions (gpt2_model self)) 0) 1 in
  perplexity_window self [tok] 0
  = (loss ← forward (gpt2_model self) window window;
     mret ((loss * inject_Z 1)%Q, 1%Z)).
Proof.
  intros window. unfold perplexity_window. simpl length.
  change (Z.of_nat 1) with 1%Z. change (0 + stride)%Z with stride.
  change (Z.min stride 1) with 1%Z. change (1 - 0)%Z with 1%Z.
  fold window.
  assert (stop_of_neg (length window) 1 = 0%nat) as ->.
  { unfold stop_of_neg. rewrite decide_True by lia.
    assert (length window <= 1)%nat; [|lia].
    unfold window, slice. rewrite length_take. simpl. lia. }
  reflexivity.
Qed.

(** C8: on a text of exactly one token the loop runs once, over a window
    whose targets are left unmasked, and the final division is by 1: if
    that one forward pass returns a loss, [evaluate_perplexity] returns
    the exponential of it. *)
Theorem evaluate_perplexity_single_token (text : string) (tok : Z) (loss : Q) :
  gpt2_tokenizer self text = Ok [tok] ->
  forward (gpt2_model self)
    (slice [tok] (Z.max (stride - n_positions (gpt2_model self)) 0) 1)
    (slice [tok] (Z.max (stride - n_positions (gpt2_model self)) 0) 1)
  = Ok loss ->
  exists x, evaluate_perplexity lib self text = Ok (torch_exp lib x)
            /\ (x == loss)%Q
            /\ ((stride <= n_positions (gpt2_model self))%Z ->
                slice [tok] (Z.max (stride - n_positions (gpt2_model self)) 0) 1
                = [tok]).
Proof.
  intros Htok Hfwd. unfold evaluate_perplexity.
  rewrite Htok, bind_Ok_l. change (Z.of_nat (length [tok])) with 1%Z.
  rewrite range_single. cbn [mapM].
  rewrite perplexity_window_single. cbv zeta. rewrite Hfwd. simpl.
  eexists. split; [reflexivity|]. split.
  - unfold Qeq. simpl. lia.
  - intros Hn. by rewrite Z.max_r by lia.
Qed.




Lemma evaluate_perplexity_no_token (text : string) :
  gpt2_tokenizer self text = Ok [] ->
  evaluate_perplexity lib self text = Raise RuntimeError.
Proof. intros Htok. unfold evaluate_perplexity. by rewrite Htok. Qed.
End Perplexity.

(** ** Dictionary literals *)

Lemma dict_literal_snoc {V} (entries : list (string * V)) k v :
  dict_literal (entries ++ [(k, v)]) = <[k := v]> (dict_literal entries).
Proof. unfold dict_literal. by rewrite foldl_app. Qed.

Lemma dom_dict_literal {V} (entries : list (string * V)) :
  dom (dict_literal entries) = list_to_set entries.*1.
Proof.
  induction entries as [|[k v] entries IH] using rev_ind.
  - unfold dict_literal. simpl. by rewrite dom_empty_L.
  - rewrite dict_literal_snoc, dom_insert_L, IH, fmap_app, list_to_set_app_L.
    simpl. rewrite union_empty_r_L. apply (comm_L (∪)).
Qed.

Lemma dict_literal_lookup_Some {V} (entries : list (string * V)) k v :
  dict_literal entries !! k = Some v -> (k, v) ∈ entries.
Proof.
  induction entries as [|[k' v'] entries IH] using rev_ind.
  - unfold dict_literal. simpl. by rewrite lookup_empty.
  - rewrite dict_literal_snoc, elem_of_app, list_elem_of_singleton.
    destruct (decide (k' = k)) as [->|Hne].
    + rewrite lookup_insert_eq. intros [= ->]. by right.
    + rewrite lookup_insert_ne by done. intros Hk. left. by apply IH.
Qed.

Lemma dict_literal_lookup_NoDup {V} (entries : list (string * V)) k v :
  NoDup entries.*1 -> (k, v) ∈ entries -> dict_literal entries !! k = Some v.
Proof.
  induction entries as [|[k' v'] entries IH] using rev_ind.
  - intros _ Hin. by apply elem_of_nil in Hin.
  - rewrite fmap_app, dict_literal_snoc, elem_of_app, list_elem_of_singleton.
    simpl. intros Hnd [Hin|[= -> ->]].
    + apply NoDup_app in Hnd as (Hnd & Hfresh & _).
      rewrite lookup_insert_ne; [by apply IH|].
      intros ->. apply (Hfresh k); [|by left].
      apply list_elem_of_fmap. by exists (k, v).
    + by rewrite lookup_insert_eq.
Qed.

(** ** The aggregated report *)

Lemma report_keys_NoDup : NoDup report_keys.
Proof. apply (bool_decide_unpack _). by vm_compute. Qed.

Lemma all_tokens_of_singleton text : all_tokens_of [text] = split text.
Proof. unfold all_tokens_of. simpl. apply app_nil_r. Qed.

Lemma first_raise_app pre e post :
  Forall is_ok pre -> first_raise (pre ++ Raise e :: post) = Some e.
Proof.
  induction 1 as [|c pre [[] ->] _ IH]; simpl; [done | apply IH].
Qed.

Section Report.
Context (lib : Libraries) (self : RAGEvaluator).

(** What a returned report is made of. *)
Lemma evaluate_all_Ok question response reference rep :
  evaluate_all lib self question response reference = Ok rep ->
  exists br prf perplexity racial_bias meteor chrf fl sim fc qr cr ar toxicity,
    evaluate_bleu_rouge lib [response] [reference] = Ok br
    /\ evaluate_bert_score lib [response] [reference] = Ok prf
    /\ evaluate_perplexity lib self response = Ok perplexity
    /\ evaluate_racial_bias self response = Ok racial_bias
    /\ evaluate_meteor lib [response] [reference] = Ok meteor
    /\ evaluate_chrf lib [response] [reference] = Ok chrf
    /\ evaluate_readability lib response = Ok fl
    /\ evaluate_semantic_similarity lib self response reference = Ok sim
    /\ evaluate_factual_consistency lib self response reference
         default_factual_threshold = Ok fc
    /\ evaluate_question_relevance lib self question response
         default_relevance_threshold = Ok qr
    /\ evaluate_question_relevance lib self reference response
         default_relevance_threshold = Ok cr
    /\ evaluate_question_relevance lib self question response
         default_relevance_threshold = Ok ar
    /\ evaluate_toxicity self response = Ok toxicity
    /\ rep = dict_literal [
         ("BLEU", PyFloat br.1);
         ("ROUGE-1", PyFloat br.2);
         ("BERT P", PyFloat prf.1.1);
         ("BERT R", PyFloat prf.1.2);
         ("BERT F1", PyFloat prf.2);
         ("Perplexity", PyFloat perplexity);
         ("Diversity", evaluate_diversity [response]);
         ("Racial Bias", PyFloat racial_bias);
         ("METEOR", PyFloat meteor);
         ("CHRF", PyFloat chrf);
         ("Flesch Reading Ease", PyFloat fl.1);
         ("Flesch-Kincaid Grade", PyFloat fl.2);
         ("Semantic Similarity", PyFloat sim);
         ("Factual Consistency", PyBool fc);
         ("Question Relevance", PyBool qr);
         ("Context Relevance", PyBool cr);
         ("Answer Relevance", PyBool ar);
         ("Toxicity", PyFloat toxicity) ].
Proof.
  unfold evaluate_all. intros H.
  repeat (apply bind_Ok in H as (? & ? & H); cbv beta zeta in H).
  injection H as <-.
  repeat eexists; eassumption.
Qed.

(** A report that [evaluate_all] returns has exactly the 18 keys. *)
Lemma evaluate_all_keys (question response reference : string)
    (rep : gmap string PyValue) :
  evaluate_all lib self question response reference = Ok rep ->
  dom rep = list_to_set report_keys /\ size rep = 18%nat.
Proof.
  intros H. apply evaluate_all_Ok in H
    as (br & prf & ppl & bias & met & chrf & fl & sim & fc & qr & cr & ar
        & tox & _ & _ & _ & _ & _ & _ & _ & _ & _ & _ & _ & _ & _ & ->).
  split; [by rewrite dom_dict_literal|].
  rewrite <- size_dom, dom_dict_literal, size_list_to_set
    by apply report_keys_NoDup.
  reflexivity.
Qed.

(** The Diversity entry of a report is the integer 0 when the response has
    no whitespace-separated token and a quotient of counts otherwise. *)
Lemma evaluate_all_diversity (question response reference : string)
    (rep : gmap string PyValue) :
  evaluate_all lib self question response reference = Ok rep ->
  rep !! "Diversity" = Some (evaluate_diversity [response])
  /\ (split response = [] -> evaluate_diversity [response] = PyInt 0)
  /\ (split response <> [] -> py_type (evaluate_diversity [response]) = TFloat).
Proof.
  intros H. apply evaluate_all_Ok in H
    as (br & prf & ppl & bias & met & chrf & fl & sim & fc & qr & cr & ar
        & tox & _ & _ & _ & _ & _ & _ & _ & _ & _ & _ & _ & _ & _ & ->).
  split; [|split].
  - apply dict_literal_lookup_NoDup; [apply report_keys_NoDup|].
    apply list_elem_of_In; simpl; tauto.
  - intros Hnil. apply evaluate_diversity_no_tokens.
    by rewrite all_tokens_of_singleton.
  - intros Hne. rewrite evaluate_diversity_tokens; [done|].
    by rewrite all_tokens_of_singleton.
Qed.

Lemma bind_mret_fmap {A B} (f : A -> B) (m : result A) :
  (a ← m; mret (f a)) = f <$> m.
Proof. by destruct m. Qed.

(** C5: the three relevance methods return equal results on equal
    arguments, each the thresholded semantic similarity; and in a report
    of [evaluate_all] the Context Relevance and Answer Relevance values
    are the results of [evaluate_question_relevance], on (reference,
    response) and (question, response), like Question Relevance. *)
Theorem relevance_methods_agree (x y : string) (t : Q)
    (question response reference : string) (rep : gmap string PyValue) :
  evaluate_question_relevance lib self x y t
  = evaluate_context_relevance lib self x y t
  /\ evaluate_context_relevance lib self x y t
     = evaluate_answer_relevance lib self x y t
  /\ evaluate_answer_relevance lib self x y t
     = (Qle_bool t <$> evaluate_semantic_similarity lib self x y)
  /\ (evaluate_all lib self question response reference = Ok rep ->
      dict_get rep "Question Relevance"
      = (PyBool <$> evaluate_question_relevance lib self question response
                      default_relevance_threshold)
      /\ dict_get rep "Context Relevance"
         = (PyBool <$> evaluate_question_relevance lib self reference response
                         default_relevance_threshold)
      /\ dict_get rep "Answer Relevance"
         = (PyBool <$> evaluate_question_relevance lib self question response
                         default_relevance_threshold)).
Proof.
  split; [done|]. split; [done|]. split.
  { unfold evaluate_answer_relevance. apply bind_mret_fmap. }
  intros H. apply evaluate_all_Ok in H
    as (br & prf & ppl & bias & met & chrf & fl & sim & fc & qr & cr & ar
        & tox & _ & _ & _ & _ & _ & _ & _ & _ & _ & Hqr & Hcr & Har & _ & ->).
  rewrite Hqr, Hcr. rewrite Hqr in Har. injection Har as <-.
  unfold dict_get.
  rewrite (dict_literal_lookup_NoDup _ "Question Relevance" (PyBool qr)),
          (dict_literal_lookup_NoDup _ "Context Relevance" (PyBool cr)),
          (dict_literal_lookup_NoDup _ "Answer Relevance" (PyBool qr));
    try done; try apply report_keys_NoDup;
    apply list_elem_of_In; simpl; tauto.
Qed.

(** The outcome of [evaluate_all] is that of its calls taken in order. *)
Lemma evaluate_all_first_raise question response reference e :
  first_raise (metric_calls lib self question response reference) = Some e ->
  evaluate_all lib self question response reference = Raise e.
Proof.
  unfold metric_calls, evaluate_all. intros H.
  repeat first
    [ progress cbn [first_raise outcome fmap result_fmap] in H
    | progress cbv beta zeta
    | match goal with
      | |- Ok _ ≫= _ = _ => rewrite bind_Ok_l
      | |- Raise _ ≫= _ = _ => injection H as ->; reflexivity
      | |- ?m ≫= _ = _ => destruct m as [?|?] eqn:?
      end ].
  discriminate.
Qed.

Lemma evaluate_all_no_raise question response reference :
  first_raise (metric_calls lib self question response reference) = None ->
  is_ok (evaluate_all lib self question response reference).
Proof.
  unfold metric_calls, evaluate_all. intros H.
  repeat first
    [ progress cbn [first_raise outcome fmap result_fmap] in H
    | progress cbv beta zeta
    | match goal with
      | |- is_ok (Ok _ ≫= _) => rewrite bind_Ok_l
      | |- is_ok (Raise _ ≫= _) => discriminate
      | |- is_ok (?m ≫= _) => destruct m as [?|?] eqn:?
      end ].
  by eexists.
Qed.

(** C9: if a call made by [evaluate_all] raises, every call before it
    having returned, then [evaluate_all] raises that same exception and
    returns no report. *)
Theorem evaluate_all_propagates (question response reference : string)
    (pre post : list (result unit)) (e : PyError) :
  metric_calls lib self question response reference = pre ++ Raise e :: post ->
  Forall is_ok pre ->
  evaluate_all lib self question response reference = Raise e
  /\ forall rep, evaluate_all lib self question response reference <> Ok rep.
Proof.
  intros Hcalls Hpre.
  assert (evaluate_all lib self question response reference = Raise e) as Hraise.
  { apply evaluate_all_first_raise. rewrite Hcalls. by apply first_raise_app. }
  split; [done|]. intros rep. by rewrite Hraise.
Qed.
End Report.

(** ** Construction *)

(** C7 fails on the code: a construction that succeeds has performed seven
    loads, the causal language model and its tokenizer being loaded twice
    each ([load_gpt2_model] is called two times) and the other three
    capabilities once. *)
Theorem construct_loads_gpt2_twice
    (lib : Libraries) (evaluator : RAGEvaluator) (log : list Capability) :
  construct lib = (Ok evaluator, log) ->
  log = expected_loads
  /\ count_occ Capability_eq_dec log CausalLM = 2%nat
  /\ count_occ Capability_eq_dec log Tokenizer = 2%nat
  /\ count_occ Capability_eq_dec log BiasClassifier = 1%nat
  /\ count_occ Capability_eq_dec log SentenceEncoder = 1%nat
  /\ count_occ Capability_eq_dec log ToxicityClassifier = 1%nat.
Proof.
  unfold construct, __init__, load_gpt2_model, init_bind, init_ret, acquire.
  destruct (GPT2LMHeadModel_from_pretrained lib "gpt2"); [|by intros [=]].
  destruct (GPT2Tokenizer_from_pretrained lib "gpt2"); [|by intros [=]].
  destruct (pipeline_zero_shot lib _); [|by intros [=]].
  destruct (SentenceTransformer_load lib _); [|by intros [=]].
  destruct (pipeline_text_classification lib _); [|by intros [=]].
  simpl. intros [= _ <-]. by repeat split.
Qed.

(** ** Averages over scored pairs *)

Section Averages.
Context (lib : Libraries).


End Averages.

(** ** Concrete runs on the test doubles *)

(** C1 fails on the code: on a response made of one blank every call
    returns, and the Diversity entry of the report is the integer 0, not a
    float ([evaluate_diversity] ends in [else 0] where [evaluate_toxicity]
    ends in [else 0.0]). *)
Lemma evaluate_all_diversity_int :
  (rep ← evaluate_all Stub.lib Stub.evaluator "why" " " "a cat sat";
   dict_get rep "Diversity") = Ok (PyInt 0)
  /\ py_type (PyInt 0) <> TFloat
  /\ "Diversity" ∉ boolean_keys.
Proof.
  split; [vm_compute; reflexivity|]. split; [discriminate|].
  apply (bool_decide_unpack _). by vm_compute.
Qed.

Lemma factual_consistency_threshold_witness :
  ((7 # 10) <= (8 # 10))%Q
  /\ evaluate_factual_consistency Stub.lib Stub.evaluator "a cat" "a dog" (8 # 10) = Ok true
  /\ evaluate_factual_consistency Stub.lib Stub.evaluator "a cat" "a dog" (7 # 10) = Ok true.
Proof.
  assert ((7 # 10) <= (8 # 10))%Q as Hle by (by vm_compute).
  assert (evaluate_factual_consistency Stub.lib Stub.evaluator "a cat" "a dog" (8 # 10)
          = Ok true) as Htrue by reflexivity.
  split; [exact Hle|]. split; [exact Htrue|].
  exact (proj2 (proj2 (factual_consistency_threshold Stub.lib Stub.evaluator
                         "a cat" "a dog" (7 # 10) (8 # 10))) Hle Htrue).
Defined.

Lemma evaluate_toxicity_range_witness :
  exists v, evaluate_toxicity Stub.evaluator "damn it" = Ok v
    /\ (0 <= v <= 1)%Q
    /\ (str_contains "toxic" "toxic" = false -> v = 0%Q)
    /\ (str_contains "toxic" "toxic" = true -> v = (9 # 10)%Q).
Proof.
  apply (evaluate_toxicity_range Stub.evaluator "damn it"
           {| label := "toxic"; score := 9 # 10 |} []).
  - reflexivity.
  - split; by vm_compute.
Defined.

Lemma relevance_methods_agree_witness :
  dict_get Stub.report "Context Relevance"
  = (PyBool <$> evaluate_question_relevance Stub.lib Stub.evaluator
                  "a cat sat" "the cat sat" default_relevance_threshold).
Proof.
  assert (evaluate_all Stub.lib Stub.evaluator "why" "the cat sat" "a cat sat"
          = Ok Stub.report) as H by (vm_compute; reflexivity).
  destruct (relevance_methods_agree Stub.lib Stub.evaluator
              "why" "the cat sat" (7 # 10)
              "why" "the cat sat" "a cat sat" Stub.report)
    as (_ & _ & _ & Hrep).
  destruct (Hrep H) as (_ & Hcontext & _). exact Hcontext.
Defined.

Lemma semantic_similarity_symmetric_witness :
  evaluate_semantic_similarity Strict.lib Stub.evaluator "the cat sat" "a cat"
  = evaluate_semantic_similarity Strict.lib Stub.evaluator "a cat" "the cat sat".
Proof.
  apply (semantic_similarity_symmetric Strict.lib Stub.evaluator
           Strict.sqrt Stub.embed).
  - intros texts. reflexivity.
  - intros x y. reflexivity.
Defined.

Lemma construct_loads_gpt2_twice_witness :
  construct Stub.lib = (Ok Stub.evaluator, expected_loads)
  /\ count_occ Capability_eq_dec expected_loads CausalLM = 2%nat.
Proof.
  assert (construct Stub.lib = (Ok Stub.evaluator, expected_loads)) as H
    by reflexivity.
  split; [exact H|].
  exact (proj1 (proj2 (construct_loads_gpt2_twice Stub.lib Stub.evaluator
                         expected_loads H))).
Defined.

Lemma evaluate_perplexity_single_token_witness :
  exists x, evaluate_perplexity Stub.lib Stub.evaluator " " = Ok (torch_exp Stub.lib x)
            /\ (x == 1)%Q.
Proof.
  destruct (evaluate_perplexity_single_token Stub.lib Stub.evaluator " " 32 1)
    as (x & Hx & Heq & _).
  - reflexivity.
  - reflexivity.
  - by exists x.
Defined.

Lemma evaluate_all_propagates_witness :
  evaluate_all Stub.lib Stub.evaluator "why" "" "a cat sat" = Raise RuntimeError.
Proof.
  apply (evaluate_all_propagates Stub.lib Stub.evaluator "why" "" "a cat sat"
           [Ok (); Ok ()] (replicate 11 (Ok ())) RuntimeError).
  - vm_compute. reflexivity.
  - repeat constructor; by eexists.
Defined.



(** * Further properties of the evaluator *)

(** ** The sliding windows of [evaluate_perplexity] *)

Lemma range_index_lt (n : Z) (k : nat) :
  (k < Z.to_nat ((n + stride - 1) / stride))%nat ->
  (Z.of_nat k * stride < n)%Z.
Proof.
  unfold stride. intros Hk.
  pose proof (Z.mul_div_le (n + 512 - 1) 512 eq_refl) as Hq.
  lia.
Qed.

Lemma range_cover (n : Z) :
  (0 < n)%Z ->
  (n <= Z.of_nat (Z.to_nat ((n + stride - 1) / stride)) * stride)%Z.
Proof.
  unfold stride. intros Hn.
  pose proof (Z.mul_succ_div_gt (n + 512 - 1) 512 eq_refl) as Hq.
  assert (0 <= (n + 512 - 1) / 512)%Z by (apply Z.div_pos; lia).
  lia.
Qed.

Lemma elem_of_range (n i : Z) :
  i ∈ range n stride ->
  (0 <= i < n)%Z /\ exists k : nat, i = (Z.of_nat k * stride)%Z.
Proof.
  unfold range. intros (k & -> & Hk)%list_elem_of_fmap.
  apply elem_of_seq in Hk. split; [|by exists k].
  split; [unfold stride; lia|]. apply range_index_lt. lia.
Qed.

Section Windows.
Context (lib : Libraries) (self : RAGEvaluator).

Lemma perplexity_window_unfold (input_ids : list Z) (i : Z) :
  i ∈ range (Z.of_nat (length input_ids)) stride ->
  (stride <= n_positions (gpt2_model self))%Z ->
  let begin_loc := Z.max (i + stride - n_positions (gpt2_model self)) 0 in
  let end_loc := Z.min (i + stride) (Z.of_nat (length input_ids)) in
  perplexity_window self input_ids i
  = (loss ← forward (gpt2_model self)
             (slice input_ids begin_loc end_loc)
             (replicate (Z.to_nat (i - begin_loc)) (-100)%Z
              ++ slice input_ids i end_loc);
     mret ((loss * inject_Z (end_loc - i))%Q, end_loc))
  /\ (Z.of_nat (length (slice input_ids begin_loc end_loc))
      <= n_positions (gpt2_model self))%Z
  /\ (0 < end_loc - i <= stride)%Z
  /\ length (slice input_ids i end_loc) = Z.to_nat (end_loc - i).
Proof.
  intros Hi Hn begin_loc end_loc.
  apply elem_of_range in Hi as ((Hi0 & Hin) & _).
  assert (0 <= begin_loc <= i)%Z as Hb by (unfold begin_loc; lia).
  assert (i < end_loc <= Z.of_nat (length input_ids))%Z as He
    by (unfold end_loc, stride; lia).
  assert (end_loc <= i + stride)%Z as He' by (unfold end_loc; lia).
  assert (length (slice input_ids begin_loc end_loc)
          = Z.to_nat (end_loc - begin_loc)) as Hlen.
  { unfold slice. rewrite length_take, length_drop. lia. }
  split; [|split; [|split]].
  - unfold perplexity_window. cbv zeta. fold begin_loc end_loc.
    rewrite Hlen.
    assert (stop_of_neg (Z.to_nat (end_loc - begin_loc)) (end_loc - i)
            = Z.to_nat (i - begin_loc)) as ->.
    { unfold stop_of_neg. rewrite decide_True by lia. lia. }
    assert (drop (Z.to_nat (i - begin_loc)) (slice input_ids begin_loc end_loc)
            = slice input_ids i end_loc) as ->; [|done].
    unfold slice.
    replace (Z.to_nat end_loc - Z.to_nat begin_loc)%nat
      with (Z.to_nat (i - begin_loc) + (Z.to_nat end_loc - Z.to_nat i))%nat by lia.
    rewrite <- take_drop_commute, drop_drop. do 2 f_equal. lia.
  - rewrite Hlen. unfold begin_loc. lia.
  - lia.
  - unfold slice. rewrite length_take, length_drop. lia.
Qed.

(** X1: for a window start [i] of the loop and a context of at least one
    stride, the model receives the tokens from [begin_loc] to [end_loc], at
    most [n_positions] of them; the targets mask exactly the tokens before
    [i] and keep the tokens from [i] to [end_loc], between 1 and 512 of
    them. *)
Theorem perplexity_window_contents (input_ids : list Z) (i : Z) :
  i ∈ range (Z.of_nat (length input_ids)) stride ->
  (stride <= n_positions (gpt2_model self))%Z ->
  let begin_loc := Z.max (i + stride - n_positions (gpt2_model self)) 0 in
  let end_loc := Z.min (i + stride) (Z.of_nat (length input_ids)) in
  perplexity_window self input_ids i
  = (loss ← forward (gpt2_model self)
             (slice input_ids begin_loc end_loc)
             (replicate (Z.to_nat (i - begin_loc)) (-100)%Z
              ++ slice input_ids i end_loc);
     mret ((loss * inject_Z (end_loc - i))%Q, end_loc))
  /\ (Z.of_nat (length (slice input_ids begin_loc end_loc))
      <= n_positions (gpt2_model self))%Z
  /\ (0 < end_loc - i <= stride)%Z
  /\ length (slice input_ids i end_loc) = Z.to_nat (end_loc - i).
Proof. apply perplexity_window_unfold. Qed.

Lemma mapM_Ok_fmap {A B} (f : A -> result B) (g : A -> B) (l : list A) :
  (forall x, f x = Ok (g x)) -> mapM f l = Ok (g <$> l).
Proof.
  intros Hf. induction l as [|x l IH]; simpl; [done|].
  by rewrite Hf, IH.
Qed.

Lemma sum_app (xs ys : list Q) : (sum (xs ++ ys) == sum xs + sum ys)%Q.
Proof.
  induction xs as [|x xs IH]; simpl.
  - by rewrite Qplus_0_l.
  - unfold sum in *. simpl. rewrite IH. apply Qplus_assoc.
Qed.

Lemma range_snoc (n : Z) (m : nat) :
  (fun k : nat => Z.of_nat k * stride)%Z <$> seq 0 (S m)
  = ((fun k : nat => Z.of_nat k * stride)%Z <$> seq 0 m)
    ++ [(Z.of_nat m * stride)%Z].
Proof. by rewrite seq_S, fmap_app. Qed.







(** X3: a text of at most 512 tokens, under a context of at least 512, is
    scored in one window holding the whole input with nothing masked; if
    that forward pass returns a loss, the perplexity is the exponential of
    (a number equal to) that loss. *)
Theorem evaluate_perplexity_short_text (text : string) (input_ids : list Z) (loss : Q) :
  gpt2_tokenizer self text = Ok input_ids ->
  input_ids <> [] ->
  (Z.of_nat (length input_ids) <= stride)%Z ->
  (stride <= n_positions (gpt2_model self))%Z ->
  forward (gpt2_model self) input_ids input_ids = Ok loss ->
  exists x, evaluate_perplexity lib self text = Ok (torch_exp lib x)
            /\ (x == loss)%Q.
Proof.
  intros Htok Hne Hshort Hctx Hfwd.
  assert (0 < Z.of_nat (length input_ids))%Z as Hpos.
  { destruct input_ids; [done | simpl; lia]. }
  assert (range (Z.of_nat (length input_ids)) stride = [0%Z]) as Hrange.
  { unfold range.
    assert ((Z.of_nat (length input_ids) + stride - 1) / stride = 1)%Z as ->;
      [|done].
    unfold stride in *. symmetry. apply Z.div_unique with
      (Z.of_nat (length input_ids) - 1)%Z; lia. }
  assert (perplexity_window self input_ids 0
          = Ok ((loss * inject_Z (Z.of_nat (length input_ids)))%Q,
                Z.of_nat (length input_ids))) as Hwin.
  { destruct (perplexity_window_unfold input_ids 0) as (-> & _);
      [rewrite Hrange; by left | done |].
    rewrite Z.max_r, Z.min_r by (unfold stride in *; lia).
    assert (slice input_ids 0 (Z.of_nat (length input_ids)) = input_ids) as ->.
    { unfold slice. rewrite drop_0. apply take_ge. lia. }
    rewrite Z.sub_0_r. simpl. rewrite Hfwd. done. }
  unfold evaluate_perplexity. rewrite Htok, bind_Ok_l, Hrange.
  cbn [mapM]. rewrite Hwin. simpl.
  eexists. split; [reflexivity|].
  unfold sum. simpl. rewrite Qplus_0_r. apply Qdiv_mult_l.
  change 0%Q with (inject_Z 0). rewrite inject_Z_injective. lia.
Qed.

(** X4: when every forward pass returns the same loss [c], the perplexity
    of any text with at least one token is the exponential of (a number
    equal to) [c]: the windows' losses are averaged with weights that sum
    to the number of tokens, which is also the final divisor. *)
Theorem evaluate_perplexity_constant_loss (text : string) (input_ids : list Z) (c : Q) :
  gpt2_tokenizer self text = Ok input_ids ->
  input_ids <> [] ->
  (forall ids labels, forward (gpt2_model self) ids labels = Ok c) ->
  exists x, evaluate_perplexity lib self text = Ok (torch_exp lib x)
            /\ (x == c)%Q.
Proof.
  intros Htok Hne Hfwd.
  set (n := Z.of_nat (length input_ids)).
  assert (0 < n)%Z as Hpos.
  { unfold n. destruct input_ids; [done | simpl; lia]. }
  set (g := fun i : Z => ((c * inject_Z (Z.min (i + stride) n - i))%Q,
                          Z.min (i + stride) n)).
  assert (forall i, perplexity_window self input_ids i = Ok (g i)) as Hwin.
  { intros i. unfold perplexity_window. cbv zeta. by rewrite Hfwd. }
  unfold evaluate_perplexity. rewrite Htok, bind_Ok_l.
  rewrite (mapM_Ok_fmap _ g) by done. rewrite bind_Ok_l. fold n.
  unfold range.
  destruct (Z.to_nat ((n + stride - 1) / stride)) as [|K] eqn:HK.
  { pose proof (range_cover n Hpos) as Hc. rewrite HK in Hc. simpl in Hc. lia. }
  assert (forall m : nat, (m <= S K)%nat ->
            (sum ((g <$> ((fun k : nat => Z.of_nat k * stride)%Z <$> seq 0 m)).*1)
             == c * inject_Z (Z.min (Z.of_nat m * stride) n))%Q) as Hsum.
  { induction m as [|m IH]; intros Hm.
    - simpl. rewrite Z.min_l by lia. unfold sum. simpl. by rewrite Qmult_0_r.
    - rewrite (range_snoc n), !fmap_app, sum_app, IH by lia.
      pose proof (range_index_lt n m) as Hlt. rewrite HK in Hlt.
      rewrite (Z.min_l (Z.of_nat m * stride)) by lia.
      unfold sum. simpl. rewrite Qplus_0_r, <- Qmult_plus_distr_r, <- inject_Z_plus.
      replace (Z.of_nat m * stride + (Z.min (Z.of_nat m * stride + stride) n
                                      - Z.of_nat m * stride))%Z
        with (Z.min (Z.pos (Pos.of_succ_nat m) * stride) n) by (unfold stride; lia).
      reflexivity. }
  assert (last (g <$> ((fun k : nat => Z.of_nat k * stride)%Z <$> seq 0 (S K)))
          = Some (g (Z.of_nat K * stride)%Z)) as ->.
  { rewrite (range_snoc n), fmap_app. apply last_snoc. }
  pose proof (range_cover n Hpos) as Hc. rewrite HK in Hc.
  pose proof (range_index_lt n K) as Hlt. rewrite HK in Hlt.
  assert (Z.min (Z.of_nat K * stride + stride) n = n) as Hend
    by (unfold stride in *; lia).
  unfold g at 1. cbv beta iota. rewrite Hend.
  eexists. split; [reflexivity|].
  rewrite (Hsum (S K)) by lia.
  rewrite Z.min_r by lia.
  apply Qdiv_mult_l. change 0%Q with (inject_Z 0). rewrite inject_Z_injective. lia.
Qed.
End Windows.

(** ** Empty tokenizations *)

(** X6: a text that the tokenizer maps to no token makes
    [evaluate_perplexity] raise [RuntimeError] (the loop body never runs
    and [torch.stack] receives an empty list); [evaluate_all] then returns
    no report for such a response, whatever the question and reference. *)
Theorem perplexity_empty_tokens (lib : Libraries) (self : RAGEvaluator)
    (response : string) :
  gpt2_tokenizer self response = Ok [] ->
  evaluate_perplexity lib self response = Raise RuntimeError
  /\ forall question reference rep,
       evaluate_all lib self question response reference <> Ok rep.
Proof.
  intros Htok.
  assert (evaluate_perplexity lib self response = Raise RuntimeError) as Hraise.
  { unfold evaluate_perplexity. by rewrite Htok. }
  split; [done|]. intros question reference rep H.
  apply evaluate_all_Ok in H as (? & ? & ppl & ? & ? & ? & ? & ? & ? & ? & ? & ?
                                 & ? & _ & _ & Hppl & _).
  by rewrite Hraise in Hppl.
Qed.

(** ** The bias score *)

Lemma index_first `{EqDecision A} (x : A) (l : list A) (i : nat) :
  l !! i = Some x ->
  (forall j, (j < i)%nat -> l !! j <> Some x) ->
  index x l = Ok i.
Proof.
  revert i. induction l as [|y l IH]; intros i Hi Hfirst; [done|].
  simpl. destruct i as [|i].
  - injection Hi as ->. by rewrite decide_True.
  - rewrite decide_False.
    + rewrite (IH i); [done | done |].
      intros j Hj. apply (Hfirst (S j)). lia.
    + intros ->. apply (Hfirst 0%nat); [lia | done].
Qed.

Lemma index_missing `{EqDecision A} (x : A) (l : list A) :
  x ∉ l -> index x l = Raise ValueError.
Proof.
  induction l as [|y l IH]; intros Hx; [done|].
  apply not_elem_of_cons in Hx as [Hne Hx]. simpl.
  rewrite decide_False by done. by rewrite IH.
Qed.

(** X7: whatever the order in which the classifier lists its labels, the
    bias score is the score stored at the position of the first
    "hate speech" label of the first result. *)
Theorem evaluate_racial_bias_aligned (self : RAGEvaluator) (text : string)
    (first : ZeroShot) (rest : list ZeroShot) (i : nat) (s : Q) :
  bias_pipeline self [text] ["hate speech"; "not hate speech"] = Ok (first :: rest) ->
  labels first !! i = Some "hate speech" ->
  (forall j, (j < i)%nat -> labels first !! j <> Some "hate speech") ->
  scores first !! i = Some s ->
  evaluate_racial_bias self text = Ok s.
Proof.
  intros Hpipe Hi Hfirst Hs. unfold evaluate_racial_bias.
  rewrite Hpipe, bind_Ok_l. unfold getitem at 1. simpl. 
  rewrite (index_first _ _ i) by done. simpl.
  unfold getitem. by rewrite Hs.
Qed.

(** X8: the bias score has no default: it raises [ValueError] when the
    first result does not list the label "hate speech", and [IndexError]
    when the classifier returns no result or fewer scores than the
    position of that label. *)
Theorem evaluate_racial_bias_errors (self : RAGEvaluator) (text : string) :
  (bias_pipeline self [text] ["hate speech"; "not hate speech"] = Ok [] ->
   evaluate_racial_bias self text = Raise IndexError)
  /\ (forall first rest,
        bias_pipeline self [text] ["hate speech"; "not hate speech"]
          = Ok (first :: rest) ->
        "hate speech" ∉ labels first ->
        evaluate_racial_bias self text = Raise ValueError)
  /\ (forall first rest i,
        bias_pipeline self [text] ["hate speech"; "not hate speech"]
          = Ok (first :: rest) ->
        labels first !! i = Some "hate speech" ->
        (forall j, (j < i)%nat -> labels first !! j <> Some "hate speech") ->
        (length (scores first) <= i)%nat ->
        evaluate_racial_bias self text = Raise IndexError).
Proof.
  unfold evaluate_racial_bias. split; [|split].
  - by intros ->.
  - intros first rest -> Hmissing. rewrite bind_Ok_l. unfold getitem at 1. simpl.
    by rewrite index_missing.
  - intros first rest i -> Hi Hfirst Hshort. rewrite bind_Ok_l.
    unfold getitem at 1. simpl. rewrite (index_first _ _ i) by done. simpl.
    unfold getitem. by rewrite lookup_ge_None_2.
Qed.

(** ** Thresholds and the report *)

Ltac report_lookup :=
  apply dict_literal_lookup_NoDup;
  [ apply report_keys_NoDup | apply list_elem_of_In; simpl; tauto ].

Section Thresholds.
Context (lib : Libraries) (self : RAGEvaluator).

(** X9: with the default thresholds (0.8 for consistency, 0.7 for
    relevance), a pair judged factually consistent is judged relevant by
    each of the three relevance methods. *)
Theorem factual_implies_relevant (a b : string) :
  evaluate_factual_consistency lib self a b default_factual_threshold = Ok true ->
  evaluate_question_relevance lib self a b default_relevance_threshold = Ok true
  /\ evaluate_context_relevance lib self a b default_relevance_threshold = Ok true
  /\ evaluate_answer_relevance lib self a b default_relevance_threshold = Ok true.
Proof.
  intros (s & Hs & Hle)%thresholded_Ok.
  assert (Qle_bool default_relevance_threshold s = true) as Hrel.
  { apply Qle_bool_iff. apply Qle_bool_iff in Hle.
    apply Qle_trans with default_factual_threshold; [by vm_compute | done]. }
  repeat split; apply thresholded_Ok; by exists s.
Qed.

(** X10: in every report the Factual Consistency entry is the test
    0.8 <= s on the Semantic Similarity entry s of the same report, and
    the Answer Relevance entry equals the Question Relevance entry. *)
Theorem report_entries_consistent (question response reference : string)
    (rep : gmap string PyValue) :
  evaluate_all lib self question response reference = Ok rep ->
  exists s,
    rep !! "Semantic Similarity" = Some (PyFloat s)
    /\ rep !! "Factual Consistency"
       = Some (PyBool (Qle_bool default_factual_threshold s))
    /\ rep !! "Answer Relevance" = rep !! "Question Relevance".
Proof.
  intros H. apply evaluate_all_Ok in H
    as (br & prf & ppl & bias & met & chrf & fl & sim & fc & qr & cr & ar
        & tox & _ & _ & _ & _ & _ & _ & _ & Hsim & Hfc & Hqr & _ & Har & _ & ->).
  apply factual_consistency_Ok in Hfc as (s' & Hs' & <-).
  rewrite Hsim in Hs'. injection Hs' as <-.
  rewrite Hqr in Har. injection Har as <-.
  exists sim. split; [report_lookup|]. split; [report_lookup|].
  transitivity (Some (PyBool qr)); [|symmetry]; report_lookup.
Qed.
End Thresholds.

(** ** More on lexical diversity *)

Lemma count_ratio_le (a a' b : nat) :
  (a <= a')%nat -> (0 < b)%nat ->
  (inject_Z (Z.of_nat a) / inject_Z (Z.of_nat b)
   <= inject_Z (Z.of_nat a') / inject_Z (Z.of_nat b))%Q.
Proof.
  intros Ha Hb. destruct b as [|b]; [lia|].
  unfold Qle, Qdiv, Qmult, Qinv, inject_Z. simpl. nia.
Qed.

Lemma count_ratio_lt_1 (a b : nat) :
  (a < b)%nat -> (inject_Z (Z.of_nat a) / inject_Z (Z.of_nat b) < 1)%Q.
Proof.
  intros Hab. destruct b as [|b]; [lia|].
  unfold Qlt, Qdiv, Qmult, Qinv, inject_Z. simpl. lia.
Qed.

(** X11: the diversity never reaches 1: with n > 0 tokens it is at most
    (n - 1) / n, there being only n - 1 consecutive pairs. *)
Theorem evaluate_diversity_below_one (texts : list string) :
  (py_num (evaluate_diversity texts) < 1)%Q
  /\ ((0 < length (all_tokens_of texts))%nat ->
      (py_num (evaluate_diversity texts)
       <= inject_Z (Z.of_nat (length (all_tokens_of texts) - 1))
          / inject_Z (Z.of_nat (length (all_tokens_of texts))))%Q).
Proof.
  destruct (decide (all_tokens_of texts = [])) as [Hnil|Hne].
  - rewrite (evaluate_diversity_no_tokens _ Hnil), Hnil. simpl.
    split; [reflexivity | lia].
  - rewrite (evaluate_diversity_tokens _ Hne). simpl.
    assert (0 < length (all_tokens_of texts))%nat as Hpos.
    { destruct (all_tokens_of texts); [done | simpl; lia]. }
    pose proof (unique_bigrams_le (all_tokens_of texts)) as Hle.
    split.
    + apply count_ratio_lt_1. lia.
    + intros _. by apply count_ratio_le.
Qed.

Lemma split_go_app_space (cur a b : string) :
  split_go cur (a +:+ " " +:+ b) = split_go cur a ++ split b.
Proof.
  revert cur. induction a as [|c a IH]; intros cur.
  - change ("" +:+ " " +:+ b) with (String " " b). simpl.
    by destruct cur.
  - change (String c a +:+ " " +:+ b) with (String c (a +:+ " " +:+ b)).
    simpl. destruct (isspace c).
    + destruct cur; by rewrite IH.
    + apply IH.
Qed.

Lemma split_app_space (a b : string) :
  split (a +:+ " " +:+ b) = split a ++ split b.
Proof. apply split_go_app_space. Qed.

Lemma evaluate_diversity_ext (texts1 texts2 : list string) :
  all_tokens_of texts1 = all_tokens_of texts2 ->
  evaluate_diversity texts1 = evaluate_diversity texts2.
Proof. unfold evaluate_diversity. by intros ->. Qed.

(** X12: the tokens of all texts are combined before the bigrams are
    formed, so bigrams run across text boundaries: two consecutive texts
    score as the single text made of them joined by a blank. *)
Theorem evaluate_diversity_joins_texts (a b : string) (rest : list string) :
  evaluate_diversity (a :: b :: rest)
  = evaluate_diversity ((a +:+ " " +:+ b) :: rest).
Proof.
  apply evaluate_diversity_ext. unfold all_tokens_of. simpl.
  by rewrite split_app_space, <- app_assoc.
Qed.

(** ** More on the averaged metrics *)

Lemma zip_surplus_r {A B} (l : list A) (k extra : list B) :
  length l = length k -> zip l (k ++ extra) = zip l k.
Proof.
  intros Hlen. rewrite zip_with_app_r, <- Hlen, take_ge, drop_ge by lia.
  simpl. apply app_nil_r.
Qed.

Lemma zip_surplus_l {A B} (l extra : list A) (k : list B) :
  length l = length k -> zip (l ++ extra) k = zip l k.
Proof.
  intros Hlen. rewrite zip_with_app_l, Hlen, take_ge, drop_ge by lia.
  rewrite zip_with_nil_r. apply app_nil_r.
Qed.

Lemma mapM_Ok_Forall {A B} (f : A -> result B) (P : B -> Prop) l k :
  (forall x y, f x = Ok y -> P y) -> mapM f l = Ok k -> Forall P k.
Proof.
  intros Hf. revert k. induction l as [|x l IH]; intros k; simpl.
  - intros [= <-]. constructor.
  - destruct (f x) as [y|] eqn:Hy; simpl; [|discriminate].
    destruct (mapM f l) as [k'|]; simpl; [|discriminate].
    intros [= <-]. constructor; [by eapply Hf | by apply IH].
Qed.

Lemma mapM_Ok_Forall_in {A B} (f : A -> result B) (P : B -> Prop) l k :
  Forall (fun x => forall y, f x = Ok y -> P y) l ->
  mapM f l = Ok k -> Forall P k.
Proof.
  intros Hf. revert k. induction Hf as [|x l Hx _ IH]; intros k; simpl.
  - intros [= <-]. constructor.
  - destruct (f x) as [y|] eqn:Hy; simpl; [|discriminate].
    destruct (mapM f l) as [k'|]; simpl; [|discriminate].
    intros [= <-]. constructor; [by apply Hx | by apply IH].
Qed.

Lemma sum_unit_bounds (scores : list Q) :
  Forall (fun s => 0 <= s <= 1)%Q scores ->
  (0 <= sum scores <= inject_Z (Z.of_nat (length scores)))%Q.
Proof.
  induction 1 as [|s scores [Hs0 Hs1] _ [IH0 IH1]].
  - split; discriminate.
  - change (sum (s :: scores)) with (s + sum scores)%Q. split.
    + change 0%Q with (0 + 0)%Q. by apply Qplus_le_compat.
    + simpl length. rewrite Nat2Z.inj_succ, <- Z.add_1_l, inject_Z_plus.
      by apply Qplus_le_compat.
Qed.

Lemma mean_unit_bounds (scores : list Q) (v : Q) :
  Forall (fun s => 0 <= s <= 1)%Q scores ->
  truediv (sum scores) (length scores) = Ok v ->
  (0 <= v <= 1)%Q.
Proof.
  intros Hs Hv. destruct (sum_unit_bounds scores Hs) as [H0 H1].
  destruct (length scores) as [|n] eqn:Hn; [discriminate|].
  injection Hv as <-.
  assert (0 < inject_Z (Z.of_nat (S n)))%Q as Hpos.
  { change 0%Q with (inject_Z 0). rewrite <- Zlt_Qlt. lia. }
  split.
  - apply Qle_shift_div_l; [done|]. by rewrite Qmult_0_l.
  - apply Qle_shift_div_r; [done|]. by rewrite Qmult_1_l.
Qed.

Section MoreAverages.
Context (lib : Libraries).

(** X13: the per-pair metrics score the pairs of [zip(references,
    candidates)] only: candidates or references beyond the length of the
    other sequence are ignored by [evaluate_chrf] and [evaluate_meteor],
    with no error. *)
Theorem surplus_texts_ignored (candidates references extra : list string) :
  length candidates = length references ->
  evaluate_chrf lib (candidates ++ extra) references
  = evaluate_chrf lib candidates references
  /\ evaluate_chrf lib candidates (references ++ extra)
     = evaluate_chrf lib candidates references
  /\ evaluate_meteor lib (candidates ++ extra) references
     = evaluate_meteor lib candidates references
  /\ evaluate_meteor lib candidates (references ++ extra)
     = evaluate_meteor lib candidates references.
Proof.
  intros Hlen. unfold evaluate_chrf, evaluate_meteor.
  by rewrite zip_surplus_r, zip_surplus_l by done.
Qed.

(** X14: when only one of the two sequences is empty there is still no
    pair to score, and [evaluate_chrf] and [evaluate_meteor] raise
    [ZeroDivisionError] without calling the scorer. *)
Theorem one_side_empty (candidates references : list string) :
  candidates = [] \/ references = [] ->
  evaluate_chrf lib candidates references = Raise ZeroDivisionError
  /\ evaluate_meteor lib candidates references = Raise ZeroDivisionError.
Proof.
  unfold evaluate_chrf, evaluate_meteor.
  intros [-> | ->]; [by rewrite zip_with_nil_r | done].
Qed.

(** X15: an average of scores that all lie in [0,1] lies in [0,1]: this
    holds for the CHRF and METEOR values and for the ROUGE-1 value
    whenever the respective scorer only returns scores in [0,1]. *)
Theorem mean_scores_bounded (candidates references : list string) :
  ((forall ref cand s, sentence_chrf lib ref cand = Ok s -> (0 <= s <= 1)%Q) ->
   forall v, evaluate_chrf lib candidates references = Ok v -> (0 <= v <= 1)%Q)
  /\ ((forall refs cand s, meteor_score lib refs cand = Ok s -> (0 <= s <= 1)%Q) ->
      forall v, evaluate_meteor lib candidates references = Ok v -> (0 <= v <= 1)%Q)
  /\ ((forall ref cand sc s,
         rouge_scorer_score lib ref cand = Ok sc -> sc !! "rouge1" = Some s ->
         (0 <= fmeasure s <= 1)%Q) ->
      forall bleu rouge1,
        evaluate_bleu_rouge lib candidates references = Ok (bleu, rouge1) ->
        (0 <= rouge1 <= 1)%Q).
Proof.
  split; [|split].
  - intros Hrange v. unfold evaluate_chrf.
    intros (scores & Hscores & Hv)%bind_Ok.
    apply (mean_unit_bounds scores); [|done].
    eapply mapM_Ok_Forall; [|exact Hscores].
    intros rc s. apply Hrange.
  - intros Hrange v. unfold evaluate_meteor.
    intros (scores & Hscores & Hv)%bind_Ok.
    apply (mean_unit_bounds scores); [|done].
    eapply mapM_Ok_Forall; [|exact Hscores].
    intros rc s (rt & _ & (ct & _ & Hs)%bind_Ok)%bind_Ok.
    eapply Hrange; eassumption.
  - intros Hrange bleu rouge1. unfold evaluate_bleu_rouge.
    intros (b & _ & (rs & Hrs & (fs & Hfs & (r1 & Hr1 & [= _ <-])%bind_Ok)
                        %bind_Ok)%bind_Ok)%bind_Ok.
    apply mapM_Ok_length in Hfs as Hlen. rewrite <- Hlen in Hr1.
    apply (mean_unit_bounds fs); [|done].
    assert (Forall (fun sc : gmap string Score =>
                      forall s, sc !! "rouge1" = Some s -> (0 <= fmeasure s <= 1)%Q)
                   rs) as Hall.
    { eapply mapM_Ok_Forall; [|exact Hrs]. intros rc sc Hsc s Hs. exact (Hrange rc.1 rc.2 sc s Hsc Hs). }
    eapply mapM_Ok_Forall_in; [|exact Hfs].
    eapply Forall_impl; [exact Hall|]. clear.
    intros sc Hsc y. unfold dict_get.
    destruct (sc !! "rouge1") as [s|] eqn:Hs; simpl; [|discriminate].
    intros [= <-]. by apply Hsc.
Qed.
End MoreAverages.

(** ** More on construction *)

(** X16: when construction fails it fails with the exception of the load
    that raised; that load is the last one performed, and the loads before
    it are the expected ones in their order, nothing being loaded after a
    failure. *)
Theorem construct_failure (lib : Libraries) (e : PyError) (log : list Capability) :
  construct lib = (Raise e, log) ->
  log `prefix_of` expected_loads
  /\ exists c, last log = Some c /\ load_outcome lib c = Raise e.
Proof.
  unfold construct, __init__, load_gpt2_model, init_bind, init_ret, acquire,
    load_outcome, outcome.
  destruct (GPT2LMHeadModel_from_pretrained lib "gpt2") eqn:Hm; simpl.
  2: { intros [= <- <-]. split; [by eexists|]. by exists CausalLM. }
  destruct (GPT2Tokenizer_from_pretrained lib "gpt2") eqn:Ht; simpl.
  2: { intros [= <- <-]. split; [by eexists|]. by exists Tokenizer. }
  destruct (pipeline_zero_shot lib _) eqn:Hb; simpl.
  2: { intros [= <- <-]. split; [by eexists|]. by exists BiasClassifier. }
  destruct (SentenceTransformer_load lib _) eqn:Hs; simpl.
  2: { intros [= <- <-]. split; [by eexists|]. by exists SentenceEncoder. }
  destruct (pipeline_text_classification lib _) eqn:Hx; simpl.
  2: { intros [= <- <-]. split; [by exists []|]. by exists ToxicityClassifier. }
  discriminate.
Qed.

(** ** More on the aggregated report *)

Section MoreReport.
Context (lib : Libraries) (self : RAGEvaluator).

(** X18: [evaluate_all] adds no failure of its own: it returns a report
    exactly when none of the calls it makes raises. *)
Theorem evaluate_all_returns_iff (question response reference : string) :
  is_ok (evaluate_all lib self question response reference)
  <-> first_raise (metric_calls lib self question response reference) = None.
Proof.
  split.
  - intros [rep Hrep].
    destruct (first_raise (metric_calls lib self question response reference))
      as [e|] eqn:He; [|done].
    apply evaluate_all_first_raise in He. by rewrite He in Hrep.
  - apply evaluate_all_no_raise.
Qed.

Lemma mean_singleton (x : Q) : (sum [x] / inject_Z (Z.of_nat 1) == x)%Q.
Proof.
  unfold sum. simpl. rewrite Qplus_0_r. unfold Qdiv.
  change (/ inject_Z 1)%Q with 1%Q. apply Qmult_1_r.
Qed.

(** X19: [evaluate_all] scores one pair, so its averages are the scores
    of that pair: the CHRF entry equals [sentence_chrf(reference,
    response)], the METEOR entry equals the METEOR score of the tokenized
    pair, the ROUGE-1 entry equals the rouge1 F-measure of the pair, and
    the BLEU entry is the corpus BLEU of the one-sentence corpus. *)
Theorem report_single_pair (question response reference : string)
    (rep : gmap string PyValue) :
  evaluate_all lib self question response reference = Ok rep ->
  (exists v s, rep !! "CHRF" = Some (PyFloat v)
     /\ sentence_chrf lib reference response = Ok s /\ (v == s)%Q)
  /\ (exists v rt ct s, rep !! "METEOR" = Some (PyFloat v)
        /\ word_tokenize lib reference = Ok rt
        /\ word_tokenize lib response = Ok ct
        /\ meteor_score lib [rt] ct = Ok s /\ (v == s)%Q)
  /\ (exists v sc s, rep !! "ROUGE-1" = Some (PyFloat v)
        /\ rouge_scorer_score lib reference response = Ok sc
        /\ sc !! "rouge1" = Some s /\ (v == fmeasure s)%Q)
  /\ (exists b, rep !! "BLEU" = Some (PyFloat b)
        /\ corpus_bleu lib [response] [[reference]] = Ok b).
Proof.
  intros H. apply evaluate_all_Ok in H
    as (br & prf & ppl & bias & met & chrf & fl & sim & fc & qr & cr & ar
        & tox & Hbr & _ & _ & _ & Hmet & Hchrf & _ & _ & _ & _ & _ & _ & _ & ->).
  split; [|split; [|split]].
  - unfold evaluate_chrf in Hchrf. simpl in Hchrf.
    destruct (sentence_chrf lib reference response) as [s|] eqn:Hs;
      [|discriminate].
    simpl in Hchrf. injection Hchrf as <-.
    eexists _, s. split; [report_lookup|]. split; [done|]. apply mean_singleton.
  - unfold evaluate_meteor in Hmet. simpl in Hmet.
    destruct (word_tokenize lib reference) as [rt|] eqn:Hrt; [|discriminate].
    simpl in Hmet.
    destruct (word_tokenize lib response) as [ct|] eqn:Hct; [|discriminate].
    simpl in Hmet.
    destruct (meteor_score lib [rt] ct) as [s|] eqn:Hs; [|discriminate].
    simpl in Hmet. injection Hmet as <-.
    eexists _, rt, ct, s. split; [report_lookup|].
    split; [done|]. split; [done|]. split; [done|]. apply mean_singleton.
  - unfold evaluate_bleu_rouge in Hbr. simpl in Hbr.
    destruct (corpus_bleu lib [response] [[reference]]) as [b|]; [|discriminate].
    simpl in Hbr.
    destruct (rouge_scorer_score lib reference response) as [sc|] eqn:Hsc;
      [|discriminate].
    simpl in Hbr. unfold dict_get in Hbr.
    destruct (sc !! "rouge1") as [s|] eqn:Hs; [|discriminate].
    simpl in Hbr. injection Hbr as <-.
    eexists _, sc, s. split; [report_lookup|].
    split; [done|]. split; [done|]. apply mean_singleton.
  - unfold evaluate_bleu_rouge in Hbr. 
    apply bind_Ok in Hbr as (b & Hb & Hrest).
    exists b. split; [|done].
    repeat (apply bind_Ok in Hrest as (? & _ & Hrest)). injection Hrest as <-.
    report_lookup.
Qed.
End MoreReport.

Section QuestionIndependence.
Context (lib : Libraries) (self : RAGEvaluator).

(** X20: the question reaches only the Question Relevance and Answer
    Relevance entries: two reports for the same response and reference,
    under different questions, agree on every other key. *)
Theorem report_question_independent (question1 question2 response reference : string)
    (rep1 rep2 : gmap string PyValue) (k : string) :
  evaluate_all lib self question1 response reference = Ok rep1 ->
  evaluate_all lib self question2 response reference = Ok rep2 ->
  k <> "Question Relevance" -> k <> "Answer Relevance" ->
  rep1 !! k = rep2 !! k.
Proof.
  intros H1 H2 Hq Ha.
  apply evaluate_all_Ok in H1
    as (br & prf & ppl & bias & met & chrf & fl & sim & fc & qr & cr & ar & tox
        & Hbr & Hprf & Hppl & Hbias & Hmet & Hchrf & Hfl & Hsim & Hfc & _ & Hcr
        & _ & Htox & ->).
  apply evaluate_all_Ok in H2
    as (br' & prf' & ppl' & bias' & met' & chrf' & fl' & sim' & fc' & qr' & cr'
        & ar' & tox' & Hbr' & Hprf' & Hppl' & Hbias' & Hmet' & Hchrf' & Hfl'
        & Hsim' & Hfc' & _ & Hcr' & _ & Htox' & ->).
  rewrite Hbr in Hbr'. rewrite Hprf in Hprf'. rewrite Hppl in Hppl'.
  rewrite Hbias in Hbias'. rewrite Hmet in Hmet'. rewrite Hchrf in Hchrf'.
  rewrite Hfl in Hfl'. rewrite Hsim in Hsim'. rewrite Hfc in Hfc'.
  rewrite Hcr in Hcr'. rewrite Htox in Htox'.
  injection Hbr' as <-. injection Hprf' as <-. injection Hppl' as <-.
  injection Hbias' as <-. injection Hmet' as <-. injection Hchrf' as <-.
  injection Hfl' as <-. injection Hsim' as <-. injection Hfc' as <-.
  injection Hcr' as <-. injection Htox' as <-.
  unfold dict_literal. cbn [foldl fst snd].
  repeat match goal with
  | |- <[?K:=_]> _ !! k = <[?K:=_]> _ !! k =>
      destruct (decide (K = k)) as [<-|?];
      [ first [congruence | by rewrite !lookup_insert_eq]
      | rewrite !(lookup_insert_ne _ K) by done ]
  end.
  reflexivity.
Qed.
End QuestionIndependence.

(** ** Concrete runs for the further properties *)

Lemma perplexity_window_contents_witness :
  length (slice [5; 6; 7]%Z 0 (Z.min (0 + stride) 3))
  = Z.to_nat (Z.min (0 + stride) 3 - 0).
Proof.
  destruct (perplexity_window_contents Stub.evaluator [5; 6; 7]%Z 0)
    as (_ & _ & _ & H).
  - by left.
  - by vm_compute.
  - exact H.
Defined.

Lemma evaluate_perplexity_short_text_witness :
  exists x, evaluate_perplexity Stub.lib Stub.evaluator "the cat sat"
            = Ok (torch_exp Stub.lib x)
            /\ (x == 11)%Q.
Proof.
  apply (evaluate_perplexity_short_text Stub.lib Stub.evaluator "the cat sat"
           (Stub.char_ids "the cat sat") 11).
  - reflexivity.
  - discriminate.
  - by vm_compute.
  - by vm_compute.
  - reflexivity.
Defined.

Lemma evaluate_perplexity_constant_loss_witness :
  exists x, evaluate_perplexity Stub.lib Uniform.evaluator "the cat sat"
            = Ok (torch_exp Stub.lib x)
            /\ (x == 3)%Q.
Proof.
  apply (evaluate_perplexity_constant_loss Stub.lib Uniform.evaluator
           "the cat sat" (Stub.char_ids "the cat sat") 3).
  - reflexivity.
  - discriminate.
  - intros ids targets. reflexivity.
Defined.


Lemma perplexity_empty_tokens_witness :
  evaluate_perplexity Stub.lib Stub.evaluator "" = Raise RuntimeError.
Proof.
  apply (perplexity_empty_tokens Stub.lib Stub.evaluator ""). reflexivity.
Defined.

Lemma evaluate_racial_bias_aligned_witness :
  evaluate_racial_bias Stub.evaluator "the cat sat" = Ok (1 # 4)%Q.
Proof.
  apply (evaluate_racial_bias_aligned Stub.evaluator "the cat sat"
           {| labels := ["not hate speech"; "hate speech"];
              scores := [3 # 4; 1 # 4] |} [] 1).
  - reflexivity.
  - reflexivity.
  - intros [|j] Hj; [discriminate | lia].
  - reflexivity.
Defined.

Lemma evaluate_racial_bias_errors_witness :
  evaluate_racial_bias Faulty.evaluator "the cat sat" = Raise ValueError.
Proof.
  destruct (evaluate_racial_bias_errors Faulty.evaluator "the cat sat")
    as (_ & Hmissing & _).
  apply (Hmissing {| labels := ["offensive"; "neutral"];
                     scores := [1 # 2; 1 # 2] |} []).
  - reflexivity.
  - apply (bool_decide_unpack _). by vm_compute.
Defined.

Lemma factual_implies_relevant_witness :
  evaluate_question_relevance Stub.lib Stub.evaluator "a cat" "a dog"
    default_relevance_threshold = Ok true.
Proof.
  apply (factual_implies_relevant Stub.lib Stub.evaluator "a cat" "a dog").
  reflexivity.
Defined.

Lemma report_entries_consistent_witness :
  exists s,
    Stub.report !! "Semantic Similarity" = Some (PyFloat s)
    /\ Stub.report !! "Factual Consistency"
       = Some (PyBool (Qle_bool default_factual_threshold s))
    /\ Stub.report !! "Answer Relevance" = Stub.report !! "Question Relevance".
Proof.
  apply (report_entries_consistent Stub.lib Stub.evaluator
           "why" "the cat sat" "a cat sat").
  reflexivity.
Defined.

Lemma surplus_texts_ignored_witness :
  evaluate_chrf Stub.lib (["the cat sat"] ++ ["a dog ran"]) ["a cat sat"]
  = evaluate_chrf Stub.lib ["the cat sat"] ["a cat sat"].
Proof.
  apply (surplus_texts_ignored Stub.lib ["the cat sat"] ["a cat sat"] ["a dog ran"]).
  reflexivity.
Defined.

Lemma one_side_empty_witness :
  evaluate_chrf Stub.lib [] ["a cat sat"] = Raise ZeroDivisionError.
Proof.
  apply (one_side_empty Stub.lib [] ["a cat sat"]). by left.
Defined.

Lemma mean_scores_bounded_witness :
  exists v, evaluate_chrf Stub.lib ["the cat sat"; "a dog"] ["a cat sat"; "the dog"]
            = Ok v /\ (0 <= v <= 1)%Q.
Proof.
  destruct (mean_scores_bounded Stub.lib ["the cat sat"; "a dog"]
              ["a cat sat"; "the dog"]) as (Hchrf & _).
  eexists. split; [reflexivity|].
  apply Hchrf.
  - intros ref cand s [= <-]. split; by vm_compute.
  - reflexivity.
Defined.

Lemma construct_failure_witness :
  [CausalLM; Tokenizer; BiasClassifier; CausalLM; Tokenizer; SentenceEncoder]
    `prefix_of` expected_loads
  /\ exists c, last [CausalLM; Tokenizer; BiasClassifier; CausalLM; Tokenizer;
                     SentenceEncoder] = Some c
               /\ load_outcome Faulty.lib c = Raise (LibraryError "offline").
Proof.
  apply (construct_failure Faulty.lib). reflexivity.
Defined.

Lemma report_single_pair_witness :
  exists v s, Stub.report !! "CHRF" = Some (PyFloat v)
    /\ sentence_chrf Stub.lib "a cat sat" "the cat sat" = Ok s /\ (v == s)%Q.
Proof.
  apply (report_single_pair Stub.lib Stub.evaluator "why" "the cat sat" "a cat sat").
  reflexivity.
Defined.

Lemma report_question_independent_witness :
  Stub.report !! "Perplexity" = Uniform.report_other_question !! "Perplexity".
Proof.
  apply (report_question_independent Stub.lib Stub.evaluator
           "why" "what is it?" "the cat sat" "a cat sat").
  - reflexivity.
  - reflexivity.
  - discriminate.
  - discriminate.
Defined.

